(** * Signature injection engine: field validation, rendering and audit

    A shallow embedding of [routes/signPdf.js] (the sign-pdf route and its
    two helpers) and of [models/Audit.js] (the audit schema and its pre-save
    hook), with the properties of the specification proved about it.

    Numbers.  A JavaScript number is an IEEE-754 binary64 value.  A number
    is embedded as its exact value, a rational ([Q]); comparisons, [typeof]
    tests and the selection of a page are exact on it.  Arithmetic that
    rounds goes through an interface ([JsArith]).  The aspect fitter,
    [calculateImageDimensions], is written once over it and run with exact
    rationals and with Rocq's primitive binary64 floats, which compute what
    the JavaScript engine computes.  The renderer computes its drawing
    coordinates with the arithmetic of the engine that runs it ([Engine]):
    [Binary64Engine] is the one the program runs, and what is proved of the
    renderer is proved for every engine. *)

From Stdlib Require Import QArith Qcanon Qround ZArith Lia Lqa List.
From Stdlib Require Import Floats.PrimFloat Floats.SpecFloat Floats.FloatOps.
From Stdlib Require Import Ascii.
From stdpp Require Import base option list strings gmap pretty sorting.

Set Default Proof Using "Type".

(* ===================================================================== *)
(** ** Arithmetic interface of the aspect fitter *)

Class JsArith (num : Type) : Type := {
  js_two : num;                   (* the literal 2 *)
  js_add : num -> num -> num;     (* a + b *)
  js_sub : num -> num -> num;     (* a - b *)
  js_mul : num -> num -> num;     (* a * b *)
  js_div : num -> num -> num;     (* a / b *)
  js_gt  : num -> num -> bool;    (* a > b *)
  js_le  : num -> num -> bool     (* a <= b *)
}.

(** Exact rational arithmetic. *)
#[export] Instance QArithOps : JsArith Q := {
  js_two := 2%Q;
  js_add := Qplus;
  js_sub := Qminus;
  js_mul := Qmult;
  js_div := Qdiv;
  js_gt a b := negb (Qle_bool a b);
  js_le := Qle_bool
}.

(** IEEE-754 binary64, the arithmetic of the JavaScript engine. *)
#[export] Instance Float64Ops : JsArith float := {
  js_two := 2%float;
  js_add := PrimFloat.add;
  js_sub := PrimFloat.sub;
  js_mul := PrimFloat.mul;
  js_div := PrimFloat.div;
  js_gt a b := PrimFloat.ltb b a;
  js_le := PrimFloat.leb
}.

Module AspectFitter.
Section Fitter.
Context {num : Type} `{JsArith num}.

(** An embedded image, as [calculateImageDimensions] reads it. *)
Record image : Type := Image { img_width : num; img_height : num }.

(** The object [{ width, height, xOffset, yOffset }] it returns. *)
Record dims : Type := Dims {
  width : num; height : num; xOffset : num; yOffset : num
}.

(** [calculateImageDimensions(image, maxWidth, maxHeight)], signPdf.js 39-57. *)
Definition calculateImageDimensions (img : image) (maxWidth maxHeight : num) : dims :=
  let imageAspectRatio := js_div (img_width img) (img_height img) in
  let boxAspectRatio := js_div maxWidth maxHeight in
  let '(w, h) :=
    if js_gt imageAspectRatio boxAspectRatio
    then (maxWidth, js_div maxWidth imageAspectRatio)
    else (js_mul maxHeight imageAspectRatio, maxHeight) in
  let xo := js_div (js_sub maxWidth w) js_two in
  let yo := js_div (js_sub maxHeight h) js_two in
  Dims w h xo yo.


End Fitter.

Arguments image : clear implicits.
Arguments dims : clear implicits.
End AspectFitter.

Import AspectFitter.

(** *** Rounding *)

(** [computed] is [exact] up to a relative error of [u]. *)
Definition within (u exact computed : Q) : Prop :=
  (exact * (1 - u) <= computed /\ computed <= exact * (1 + u))%Q.

(** The standard model of floating-point arithmetic, on the operations the
    fitter performs for one image and one box: the two aspect ratios, and
    the quotient or the product of the branch taken, are computed with a
    relative error of at most [u], and the comparison is exact.  Exact
    arithmetic satisfies it with [u = 0]; binary64 satisfies it with
    [u = 2^-53] whenever none of these results underflows or overflows. *)
Definition rounds_at (A : JsArith Q) (u : Q) (img : image Q) (maxWidth maxHeight : Q)
    : Prop :=
  let imageAspectRatio := js_div (img_width img) (img_height img) in
  let boxAspectRatio := js_div maxWidth maxHeight in
  within u (img_width img / img_height img) imageAspectRatio /\
  within u (maxWidth / maxHeight) boxAspectRatio /\
  (js_gt imageAspectRatio boxAspectRatio = true <-> (boxAspectRatio < imageAspectRatio)%Q) /\
  (if js_gt imageAspectRatio boxAspectRatio
   then within u (maxWidth / imageAspectRatio) (js_div maxWidth imageAspectRatio)
   else within u (maxHeight * imageAspectRatio) (js_mul maxHeight imageAspectRatio)).





(* ===================================================================== *)
(** ** The arithmetic of the engine *)

(** The exact value of a binary64 number.  The infinities and NaN have
    none; they are outside the embedding. *)
Definition Q_of_float (f : float) : Q :=
  match Prim2SF f with
  | S754_finite s m e =>
      let z := if s then Z.neg m else Z.pos m in
      if (0 <=? e)%Z then inject_Z (z * 2 ^ e)
      else Qred (z # Pos.pow 2 (Z.to_pos (- e)))
  | _ => 0%Q
  end.

(** The binary64 number nearest to a rational, ties to even: the rational
    itself when it is a binary64 value.  The quotient is taken with 64 bits
    or more and a sticky bit, and rounded once. *)
Definition float_of_Q (q : Q) : float :=
  let n := Qnum q in
  let d := Z.pos (Qden q) in
  let k := Z.max 0 (64 + Z.log2 d - Z.log2 (Z.abs n)) in
  let scaled := (Z.abs n * 2 ^ k)%Z in
  let sticky := if (scaled mod d =? 0)%Z then 0%Z else 1%Z in
  SF2Prim (binary_normalize prec emax (Z.sgn n * (2 * (scaled / d) + sticky)) (- k - 1) false).

(** A binary64 operation on numbers given by their exact values. *)
Definition binary64 (op : float -> float -> float) (a b : Q) : Q :=
  Q_of_float (op (float_of_Q a) (float_of_Q b)).

(** The binary64 number a decimal literal denotes. *)
Definition binary64_of (q : Q) : Q := Q_of_float (float_of_Q q).

(** Binary64 arithmetic on exact values; comparisons do not round. *)
Definition Binary64Arith : JsArith Q := {|
  js_two := 2%Q;
  js_add := binary64 PrimFloat.add;
  js_sub := binary64 PrimFloat.sub;
  js_mul := binary64 PrimFloat.mul;
  js_div := binary64 PrimFloat.div;
  js_gt a b := negb (Qle_bool a b);
  js_le := Qle_bool
|}.

(** The engine that runs the route: its arithmetic on numbers. *)
Class Engine : Type := { engine_arith : JsArith Q }.

(** The JavaScript engine. *)
Definition Binary64Engine : Engine := {| engine_arith := Binary64Arith |}.

(** [a + b], [a - b] and [a / b] as the engine computes them. *)
Definition num_add {G : Engine} (a b : Q) : Q := js_add (JsArith := engine_arith) a b.
Definition num_sub {G : Engine} (a b : Q) : Q := js_sub (JsArith := engine_arith) a b.
Definition num_div {G : Engine} (a b : Q) : Q := js_div (JsArith := engine_arith) a b.

Infix "⊕" := num_add (at level 50, left associativity).
Infix "⊖" := num_sub (at level 50, left associativity).
Infix "⊘" := num_div (at level 40, left associativity).


(* ===================================================================== *)
(** ** JavaScript values *)

(** The values a parsed JSON request body is made of, plus [undefined],
    which reading a missing property yields.  Numbers are the finite ones,
    as exact rationals. *)
#[warnings="-register-all"]
Inductive value : Type :=
| VUndefined
| VNull
| VBool (b : bool)
| VNum (n : Q)
| VStr (s : string)
| VArr (items : list value)
| VObj (props : list (string * value)).

Inductive jstype : Type := TUndefined | TObject | TBoolean | TNumber | TString.

(** [typeof v]: [null] and arrays are objects. *)
Definition typeof (v : value) : jstype :=
  match v with
  | VUndefined => TUndefined
  | VNull | VArr _ | VObj _ => TObject
  | VBool _ => TBoolean
  | VNum _ => TNumber
  | VStr _ => TString
  end.

Definition is_object_type (t : jstype) : bool :=
  match t with TObject => true | _ => false end.

(** ToBoolean: [undefined], [null], [false], [0] and [""] are falsy. *)
Definition truthy (v : value) : bool :=
  match v with
  | VUndefined | VNull => false
  | VBool b => b
  | VNum n => negb (Qeq_bool n 0)
  | VStr s => negb (String.eqb s "")
  | VArr _ | VObj _ => true
  end.

Definition isArray (v : value) : bool :=
  match v with VArr _ => true | _ => false end.

(** First binding of a key in an object's property list. *)
Fixpoint assoc (k : string) (ps : list (string * value)) : value :=
  match ps with
  | [] => VUndefined
  | (k', v) :: rest => if String.eqb k k' then v else assoc k rest
  end.

(** [v.k] for a [v] that is neither [undefined] nor [null].  The keys the
    route reads (pdfId, fields, signatureImage, pdfCoordinates, type, value,
    x, y, width, height, page) are not inherited from any prototype, so on a
    primitive or an array they are [undefined]. *)
Definition prop (v : value) (k : string) : value :=
  match v with
  | VObj ps => assoc k ps
  | _ => VUndefined
  end.

(** Errors a request can raise before the route's [catch]. *)
Inductive exn : Type :=
| TypeError (msg : string)        (* property read or method call on undefined/null *)
| PdfError (msg : string)         (* raised by the PDF library *)
| IoError (msg : string)          (* raised by the file system *)
| ValidationError (msg : string)  (* raised by the audit model on save *)
| OutsideModel (msg : string).    (* a coercion this embedding does not cover *)

Inductive result (A : Type) : Type :=
| Ok (a : A)
| Throw (e : exn).
Arguments Ok {A} a.
Arguments Throw {A} e.

#[export] Instance result_ret : MRet result := λ A a, Ok a.
#[export] Instance result_bind : MBind result := λ A B f r,
  match r with Ok a => f a | Throw e => Throw e end.

(** [v.k], which throws on [undefined] and [null]; destructuring
    [const { k } = v] behaves the same. *)
Definition get_prop (v : value) (k : string) : result value :=
  match v with
  | VUndefined | VNull => Throw (TypeError "Cannot read properties of undefined or null")
  | _ => Ok (prop v k)
  end.

(** [Math.min(a, b)] and [Math.max(a, b)] on finite numbers. *)
Definition Math_min (a b : Q) : Q := if Qle_bool a b then a else b.
Definition Math_max (a b : Q) : Q := if Qle_bool a b then b else a.

(** [Math.max(...xs, last)]. *)
Definition Math_max_spread (xs : list Q) (last : Q) : Q :=
  fold_right Math_max last xs.

(** A number as an array index: [a[q]] is an element only if [q] is a
    non-negative integer below the length; any other key is [undefined]. *)
Definition is_integer (q : Q) : bool := (Qden (Qred q) =? 1)%positive.

Definition array_index (len : nat) (q : Q) : option nat :=
  if is_integer q && (0 <=? Qnum (Qred q))%Z && (Z.to_nat (Qnum (Qred q)) <? len)%nat
  then Some (Z.to_nat (Qnum (Qred q)))
  else None.

Definition num_of_nat (n : nat) : Q := inject_Z (Z.of_nat n).

(* ===================================================================== *)
(** ** CoordinateValidator (signPdf.js 26-36) *)

(** [typeof v === 'number' && test(v)]. *)
Definition number_and (v : value) (test : Q -> bool) : bool :=
  match v with VNum n => test n | _ => false end.

Definition ge0 (n : Q) : bool := Qle_bool 0 n.            (* n >= 0 *)
Definition gt0 (n : Q) : bool := negb (Qle_bool n 0).     (* n > 0 *)
Definition ge1 (n : Q) : bool := Qle_bool 1 n.            (* n >= 1 *)

Definition validateCoordinates (coordinates : value) : bool :=
  if negb (truthy coordinates) || negb (is_object_type (typeof coordinates))
  then false
  else
    let x := prop coordinates "x" in
    let y := prop coordinates "y" in
    let width := prop coordinates "width" in
    let height := prop coordinates "height" in
    let page := prop coordinates "page" in
    number_and x ge0 &&
    number_and y ge0 &&
    number_and width gt0 &&
    number_and height gt0 &&
    number_and page ge1.

(** The five numbers of a coordinate object. *)
Record coordinates : Type := Coordinates {
  c_x : Q; c_y : Q; c_width : Q; c_height : Q; c_page : Q
}.

(** The destructuring [const { x, y, width, height, page } = pdfCoordinates]
    when all five are numbers.  The route reaches it only after
    [validateCoordinates] accepted the object, so they are; arithmetic on
    other values would coerce them, which is not modelled. *)
Definition numeric_coords (c : value) : option coordinates :=
  match prop c "x", prop c "y", prop c "width", prop c "height", prop c "page" with
  | VNum x, VNum y, VNum w, VNum h, VNum p => Some (Coordinates x y w h p)
  | _, _, _, _, _ => None
  end.

(* ===================================================================== *)
(** ** The document being drawn on *)

Inductive color : Type := rgb (r g b : Q).

(** The drawing primitives of the PDF library, with the options the route
    passes.  A drawing call is recorded with its arguments as given; a
    decimal literal of the source, such as the opacity 0.9, is written as
    the source writes it and stands for the binary64 number it denotes. *)
Inductive drawop : Type :=
| DrawImage (img : image Q) (x y width height opacity : Q)
| DrawRectangle (x y width height : Q) (borderColor : color) (borderWidth : Q) (fill : color)
| DrawText (text : value) (x y size : Q) (fill : color)
| DrawCircle (x y size : Q) (borderColor : color) (borderWidth : Q) (fill : color).

(** The loaded document: for each page, the operations added so far. *)
Abbreviation doc := (list (list drawop)).

(** [pages[pageIndex]]: the page, or [undefined] ([None]). *)
Definition page_at (pages : doc) (pageIndex : Q) : option nat :=
  array_index (length pages) pageIndex.

(** [pdfPage.drawImage(...)], [pdfPage.drawRectangle(...)] and
    [pdfPage.drawCircle(...)] with numeric options: a method call on
    [undefined] throws; on a page the operation is added. *)
Definition draw (pages : doc) (pdfPage : option nat) (op : drawop) : result doc :=
  match pdfPage with
  | None => Throw (TypeError "Cannot read properties of undefined")
  | Some i => Ok (alter (λ ops, ops ++ [op]) i pages)
  end.

(** A character of the printable ASCII range, 0x20 to 0x7E, and a text made
    of such characters only. *)
Definition printable (c : ascii) : bool :=
  (32 <=? nat_of_ascii c)%nat && (nat_of_ascii c <=? 126)%nat.

Fixpoint plain_text (s : string) : bool :=
  match s with
  | EmptyString => true
  | String c rest => printable c && plain_text rest
  end.

(** Whether the document's standard font can encode a text: it encodes
    every printable ASCII character; [font] answers for a text that has
    other characters. *)
Definition encodable (font : string -> bool) (s : string) : bool :=
  plain_text s || font s.

(** The document after [ops] were added, in order, to page [i]; used to
    state what a field's rendering leaves behind. *)
Definition add_ops (i : nat) (ops : list drawop) (pages : doc) : doc :=
  alter (λ drawn, drawn ++ ops) i pages.

(** The five cases of [switch (type)], compared with [===]. *)
Inductive fieldKind : Type := KSignature | KText | KDate | KRadio | KImage.

Definition switch_type (type : value) : option fieldKind :=
  match type with
  | VStr s =>
      if String.eqb s "signature" then Some KSignature
      else if String.eqb s "text" then Some KText
      else if String.eqb s "date" then Some KDate
      else if String.eqb s "radio" then Some KRadio
      else if String.eqb s "image" then Some KImage
      else None
  | _ => None
  end.

Definition bytes : Type := list Byte.byte.

(** [s.replace(/^data:image\/(png|jpeg);base64,/, '')]. *)
Definition strip_prefix (p s : string) : option string :=
  if String.prefix p s
  then Some (String.substring (String.length p) (String.length s - String.length p) s)
  else None.

Definition strip_data_uri (s : string) : string :=
  match strip_prefix "data:image/png;base64," s with
  | Some rest => rest
  | None =>
      match strip_prefix "data:image/jpeg;base64," s with
      | Some rest => rest
      | None => s
      end
  end.

(* ===================================================================== *)
(** ** External collaborators *)

(** What the route calls but does not define: the hash helper of
    [utils/hash.js], the PDF library, the clock's formatting and the audit
    model's casts of values that are not already of the declared type. *)
Record externals : Type := Externals {
  calculateSHA256 : bytes -> string;
  pdf_load : bytes -> option nat;            (* page count; [None]: load throws *)
  pdf_save : bytes -> doc -> bytes;          (* serialization of the drawn-on document *)
  base64_decode : string -> bytes;           (* [Buffer.from(s, 'base64')] *)
  embedPng : bytes -> option (image Q);      (* [None]: embedding throws *)
  embedJpg : bytes -> option (image Q);
  toLocaleDateString : Z -> string;
  castString : value -> option string;       (* [None]: CastError *)
  castNumber : value -> option Q;
  font_encodes : string -> bool;             (* the standard font, beyond printable ASCII *)
  (* the host's locale writes a date with characters the font encodes *)
  date_encodable : forall now, encodable font_encodes (toLocaleDateString now) = true
}.

(* ===================================================================== *)
(** ** FieldRenderer (signPdf.js 92-160) *)

Section Renderer.
Variable E : externals.
Context {G : Engine}.
Local Open Scope Q_scope.

(** [pdfPage.drawText(text, {...})]: a method call on [undefined] throws;
    the library throws on a text that is not a string and on a string the
    font cannot encode; otherwise the operation is added. *)
Definition drawText (pages : doc) (pdfPage : option nat) (text : value)
    (x y size : Q) (fill : color) : result doc :=
  match pdfPage with
  | None => Throw (TypeError "Cannot read properties of undefined")
  | Some i =>
      match text with
      | VStr s =>
          if encodable (font_encodes E) s
          then Ok (alter (λ ops, ops ++ [DrawText text x y size fill]) i pages)
          else Throw (PdfError "the font cannot encode the text")
      | _ => Throw (TypeError "text must be of type string")
      end
  end.

(** Lines 104-108: the payload without its data-URI prefix is decoded and
    embedded as PNG or as JPEG. *)
Definition embedSignature (signatureImage : string) : option (image Q) :=
  let base64Data := strip_data_uri signatureImage in
  let isPng := String.prefix "data:image/png" signatureImage in
  if isPng then embedPng E (base64_decode E base64Data)
  else embedJpg E (base64_decode E base64Data).

(** The body of the [try] of the signature case (lines 104-119). *)
Definition drawSignatureImage (signatureImage : value) (pages : doc)
    (pdfPage : option nat) (c : coordinates) : result doc :=
  match signatureImage with
  | VStr s =>
      match embedSignature s with
      | None => Throw (PdfError "embed")
      | Some img =>
          let d := calculateImageDimensions (H := engine_arith) img (c_width c) (c_height c) in
          draw pages pdfPage
            (DrawImage img (c_x c ⊕ xOffset d) (c_y c ⊕ yOffset d)
               (width d) (height d) 0.9)
      end
  | _ => Throw (TypeError "signatureImage.replace is not a function")
  end.

(** The [catch] of the signature case (lines 123-130). *)
Definition drawSignaturePlaceholder (pages : doc) (pdfPage : option nat)
    (c : coordinates) : result doc :=
  pages1 ← draw pages pdfPage
    (DrawRectangle (c_x c) (c_y c) (c_width c) (c_height c)
       (rgb 1 0 0) 1 (rgb 1 0.9 0.9));
  drawText pages1 pdfPage (VStr "SIGNATURE")
    (c_x c ⊕ 5) (c_y c ⊕ c_height c ⊘ 2 ⊖ 6) 10 (rgb 1 0 0).

(** One case of the [switch], on the page already selected. *)
Definition renderKind (signatureImage value : value) (now : Z) (pages : doc)
    (pdfPage : option nat) (c : coordinates) (k : fieldKind) : result doc :=
  let '(Coordinates x y width height page) := c in
  match k with
  | KSignature =>
      if truthy signatureImage then
        match drawSignatureImage signatureImage pages pdfPage c with
        | Ok pages1 => Ok pages1
        | Throw imgErr => drawSignaturePlaceholder pages pdfPage c
        end
      else Ok pages
  | KText =>
      if truthy value then
        pages1 ← draw pages pdfPage
          (DrawRectangle x y width height (rgb 0 0 0) 0.5 (rgb 1 1 1));
        drawText pages1 pdfPage value (x ⊕ 5) (y ⊕ height ⊘ 2 ⊖ 6) 12 (rgb 0 0 0)
      else Ok pages
  | KDate =>
      let currentDate := toLocaleDateString E now in
      pages1 ← draw pages pdfPage
        (DrawRectangle x y width height (rgb 0.2 0.4 0.8) 1 (rgb 0.95 0.95 1));
      drawText pages1 pdfPage (VStr currentDate) (x ⊕ 5) (y ⊕ height ⊘ 2 ⊖ 6) 10
        (rgb 0.2 0.4 0.8)
  | KRadio =>
      let centerX := x ⊕ width ⊘ 2 in
      let centerY := y ⊕ height ⊘ 2 in
      let radius := Math_min width height ⊘ 2 ⊖ 2 in
      draw pages pdfPage
        (DrawCircle centerX centerY radius (rgb 0 0 0) 1 (rgb 1 1 1))
  | KImage =>
      pages1 ← draw pages pdfPage
        (DrawRectangle x y width height (rgb 0.8 0.2 0.8) 1 (rgb 1 0.95 1));
      drawText pages1 pdfPage (VStr "[IMAGE]") (x ⊕ width ⊘ 2 ⊖ 20) (y ⊕ height ⊘ 2 ⊖ 6) 10
        (rgb 0.8 0.2 0.8)
  end.

(** Whether the case makes a drawing call at all: the signature case is
    guarded by [if (signatureImage)], the text case by [if (value)]. *)
Definition draws (signatureImage value : value) (k : fieldKind) : bool :=
  match k with
  | KSignature => truthy signatureImage
  | KText => truthy value
  | KDate | KRadio | KImage => true
  end.

(** The embedder of a media type, and a data URI of that media type. *)
Definition embedder (png : bool) : bytes -> option (image Q) :=
  if png then embedPng E else embedJpg E.

Definition data_uri (png : bool) (payload : string) : string :=
  (if png then "data:image/png;base64," else "data:image/jpeg;base64,") +:+ payload.

(** The value of a text field can be drawn: there is none, or it is a
    string the font encodes. *)
Definition text_ok (v : value) (k : fieldKind) : Prop :=
  k = KText -> truthy v = true ->
  exists s, v = VStr s /\ encodable (font_encodes E) s = true.

(** [Math.min(page - 1, pages.length - 1)], line 97.  Both subtractions
    are exact in binary64 for a page number from 1 to 2^53; a larger page
    number is above the page count before and after rounding. *)
Definition pageIndex (page : Q) (pages : doc) : Q :=
  Math_min (page - 1) (num_of_nat (length pages) - 1).

(** One iteration of [for (const field of fields)]. *)
Definition renderField (signatureImage : value) (now : Z) (pages : doc)
    (field : value) : result doc :=
  pdfCoordinates ← get_prop field "pdfCoordinates";
  type ← get_prop field "type";
  value ← get_prop field "value";
  if negb (truthy pdfCoordinates) then Ok pages
  else
    match numeric_coords pdfCoordinates with
    | None => Throw (OutsideModel "arithmetic on a coordinate that is not a number")
    | Some c =>
        let pdfPage := page_at pages (pageIndex (c_page c) pages) in
        match switch_type type with
        | Some k => renderKind signatureImage value now pages pdfPage c k
        | None => Ok pages
        end
    end.

Fixpoint renderFields (signatureImage : value) (now : Z) (pages : doc)
    (fields : list value) : result doc :=
  match fields with
  | [] => Ok pages
  | field :: rest =>
      pages1 ← renderField signatureImage now pages field;
      renderFields signatureImage now pages1 rest
  end.
End Renderer.

(* ===================================================================== *)
(** ** The audit model (Audit.js) *)

(** A coordinate sub-document, a field sub-document and the metadata of a
    stored audit record, after the schema's casts. *)
Record auditField : Type := AuditField {
  af_type : string;
  af_coordinates : coordinates;
  af_value : option string          (* [None]: null *)
}.

Record metadata : Type := Metadata {
  totalFields : nat;
  hasSignature : bool;
  pageCount : Q
}.

Record auditRecord : Type := AuditRecord {
  a_id : nat;
  a_pdfId : string;
  a_originalHash : string;
  a_signedHash : string;
  a_fields : list auditField;
  a_timestamp : Z;
  a_ipAddress : option string;
  a_userAgent : option string;
  a_metadata : metadata
}.

(** The argument of [new Audit({...})]. *)
Record fieldInit : Type := FieldInit {
  fi_type : value;
  fi_coordinates : value;
  fi_value : value
}.

Record auditInit : Type := AuditInit {
  i_pdfId : value;
  i_originalHash : string;
  i_signedHash : string;
  i_fields : list fieldInit;
  i_timestamp : Z;
  i_ipAddress : option string;
  i_userAgent : option string;
  i_metadata : option metadata      (* the route passes none *)
}.

(** [enum: ['signature', 'text', 'date', 'radio', 'image']]. *)
Definition type_enum : list string := ["signature"; "text"; "date"; "radio"; "image"].

Definition in_enum (s : string) : bool := existsb (String.eqb s) type_enum.

Section AuditModel.
Variable E : externals.

(** A path declared [String]: [undefined] and [null] stay unset, a string
    is kept, anything else goes through the model's cast. *)
Definition string_path (v : value) : result (option string) :=
  match v with
  | VUndefined | VNull => Ok None
  | VStr s => Ok (Some s)
  | _ => match castString E v with
         | Some s => Ok (Some s)
         | None => Throw (ValidationError "Cast to string failed")
         end
  end.

(** A path declared [Number]. *)
Definition number_path (v : value) : result (option Q) :=
  match v with
  | VUndefined | VNull => Ok None
  | VNum n => Ok (Some n)
  | _ => match castNumber E v with
         | Some n => Ok (Some n)
         | None => Throw (ValidationError "Cast to Number failed")
         end
  end.

(** [required: true]: set, and for a string not empty. *)
Definition required {A : Type} (name : string) (o : option A) : result A :=
  match o with
  | Some a => Ok a
  | None => Throw (ValidationError name)
  end.

Definition required_string (name : string) (o : option string) : result string :=
  s ← required name o;
  if String.eqb s "" then Throw (ValidationError name) else Ok s.

(** [coordinateSchema]: five required numbers, [page] with [min: 1]. *)
Definition validate_coordinates_doc (v : value) : result coordinates :=
  match v with
  | VUndefined | VNull => Throw (ValidationError "coordinates is required")
  | VObj _ =>
      x ← number_path (prop v "x") ≫= required "x";
      y ← number_path (prop v "y") ≫= required "y";
      width ← number_path (prop v "width") ≫= required "width";
      height ← number_path (prop v "height") ≫= required "height";
      page ← number_path (prop v "page") ≫= required "page";
      if Qle_bool 1 page then Ok (Coordinates x y width height page)
      else Throw (ValidationError "page is less than minimum allowed value (1)")
  | _ => Throw (ValidationError "Cast to Embedded failed")
  end.

(** [fieldSchema]: [type] required and in the enumeration, [coordinates]
    required, [value] a string that defaults to [''] when undefined. *)
Definition validate_field (f : fieldInit) : result auditField :=
  type ← string_path (fi_type f) ≫= required_string "type";
  if negb (in_enum type) then Throw (ValidationError "type is not a valid enum value")
  else
    coordinates ← validate_coordinates_doc (fi_coordinates f);
    value ← match fi_value f with
            | VUndefined => Ok (Some ""%string)
            | v => string_path v
            end;
    Ok (AuditField type coordinates value).

Fixpoint validate_fields (fs : list fieldInit) : result (list auditField) :=
  match fs with
  | [] => Ok []
  | f :: rest =>
      f1 ← validate_field f;
      rest1 ← validate_fields rest;
      Ok (f1 :: rest1)
  end.

(** Validation of a whole document; it yields the record as stored, with
    the schema's default metadata unless some was supplied. *)
Definition validate (id : nat) (d : auditInit) : result auditRecord :=
  pdfId ← string_path (i_pdfId d) ≫= required_string "pdfId";
  originalHash ← required_string "originalHash" (Some (i_originalHash d));
  signedHash ← required_string "signedHash" (Some (i_signedHash d));
  fields ← validate_fields (i_fields d);
  Ok (AuditRecord id pdfId originalHash signedHash fields (i_timestamp d)
        (i_ipAddress d) (i_userAgent d)
        (default (Metadata 0 false 1) (i_metadata d))).

(** [auditSchema.pre('save', ...)], Audit.js 55-62. *)
Definition pre_save (this : auditRecord) : auditRecord :=
  AuditRecord (a_id this) (a_pdfId this) (a_originalHash this) (a_signedHash this)
    (a_fields this) (a_timestamp this) (a_ipAddress this) (a_userAgent this)
    (Metadata
       (length (a_fields this))
       (existsb (λ f, String.eqb (af_type f) "signature") (a_fields this))
       (Math_max_spread (map (λ f, c_page (af_coordinates f)) (a_fields this)) 1)).
End AuditModel.

(* ===================================================================== *)
(** ** The world of a request and the route's monad *)

Record world : Type := World {
  files : gmap string bytes;     (* the file system *)
  audits : list auditRecord;     (* the audit collection *)
  clock : Z;                     (* milliseconds since the epoch *)
  reads : list string            (* files whose content was read, latest first *)
}.

(** A computation that may change the world and may throw; what was
    changed before a throw stays changed. *)
Definition M (A : Type) : Type := world -> result A * world.

#[export] Instance M_ret : MRet M := λ A a w, (Ok a, w).
#[export] Instance M_bind : MBind M := λ A B f m w,
  match m w with
  | (Ok a, w1) => f a w1
  | (Throw e, w1) => (Throw e, w1)
  end.

Definition lift {A : Type} (r : result A) : M A := λ w, (r, w).

Definition try_catch {A : Type} (body : M A) (handler : exn -> M A) : M A := λ w,
  match body w with
  | (Ok a, w1) => (Ok a, w1)
  | (Throw e, w1) => handler e w1
  end.

Definition pathExists (p : string) : M bool := λ w,
  (Ok (bool_decide (is_Some (files w !! p))), w).

Definition readFile (p : string) : M bytes := λ w,
  match files w !! p with
  | Some b => (Ok b, World (files w) (audits w) (clock w) (p :: reads w))
  | None => (Throw (IoError "ENOENT"), w)
  end.

Definition writeFile (p : string) (b : bytes) : M unit := λ w,
  (Ok tt, World (<[p := b]> (files w)) (audits w) (clock w) (reads w)).

Definition copy (src dst : string) : M unit :=
  b ← readFile src; writeFile dst b.

Definition Date_now : M Z := λ w, (Ok (clock w), w).

(** The identifier the driver generates for a new document: one that no
    document of the collection has.  Which one is immaterial; the least
    number above those in use is taken. *)
Definition fresh_id (collection : list auditRecord) : nat :=
  fold_right (λ r next, Nat.max (S (a_id r)) next) 0%nat collection.

Section AuditSave.
Variable E : externals.

(** [audit.save()]: validation, then the pre-save hook, then the insert
    under a generated identifier. *)
Definition Audit_save (d : auditInit) : M auditRecord := λ w,
  match validate E (fresh_id (audits w)) d with
  | Throw e => (Throw e, w)
  | Ok this =>
      let stored := pre_save this in
      (Ok stored, World (files w) (audits w ++ [stored]) (clock w) (reads w))
  end.
End AuditSave.

(* ===================================================================== *)
(** ** DocumentPipeline: [router.post('/sign-pdf', ...)] (signPdf.js 61-205) *)

Record request : Type := Request {
  req_body : value;                 (* [req.body], the parsed JSON *)
  req_ip : option string;           (* [req.ip] *)
  req_userAgent : option string     (* [req.get('User-Agent')] *)
}.

Inductive body : Type :=
| ErrorBody (error : string)
| ErrorDetails (error : string) (details : exn)
| SuccessBody (message signedPdfUrl originalHash signedHash : string)
    (auditId : nat) (downloadUrl : string).

Record response : Type := Response { status : nat; json : body }.

Definition path_join (dir name : string) : string := dir +:+ "/" +:+ name.

Definition SIGNED_DIR : string := "signed-pdfs".
Definition PUBLIC_DIR : string := "public".

Definition array_items (v : value) : list value :=
  match v with VArr items => items | _ => [] end.

(** [fields.filter(f => !validateCoordinates(f.pdfCoordinates))]. *)
Fixpoint invalid_fields (fields : list value) : result (list value) :=
  match fields with
  | [] => Ok []
  | f :: rest =>
      c ← get_prop f "pdfCoordinates";
      rest1 ← invalid_fields rest;
      Ok (if validateCoordinates c then rest1 else f :: rest1)
  end.

(** [v === 'text']. *)
Definition is_text (v : value) : bool :=
  match v with VStr s => String.eqb s "text" | _ => false end.

(** The callback of [fields.map] at lines 181-185. *)
Definition audit_field (f : value) : result fieldInit :=
  type ← get_prop f "type";
  coordinates ← get_prop f "pdfCoordinates";
  value ← (if is_text type then get_prop f "value" else Ok VUndefined);
  Ok (FieldInit type coordinates value).

Fixpoint audit_fields (fields : list value) : result (list fieldInit) :=
  match fields with
  | [] => Ok []
  | f :: rest =>
      f1 ← audit_field f;
      rest1 ← audit_fields rest;
      Ok (f1 :: rest1)
  end.

(** [undefined] and [null], the values no property can be read from. *)
Definition nullish (v : value) : bool :=
  match v with VUndefined | VNull => true | _ => false end.

(** The predicate of the filter at line 72, on an entry it can read. *)
Definition invalid (f : value) : bool :=
  negb (validateCoordinates (prop f "pdfCoordinates")).

(** A field the renderer can place: an object whose coordinates pass
    validation and whose page number is an integer. *)
Definition placeable (f : value) : bool :=
  match f with
  | VObj ps =>
      validateCoordinates (assoc "pdfCoordinates" ps) &&
      number_and (prop (assoc "pdfCoordinates" ps) "page") is_integer
  | _ => false
  end.

(** A field the audit model accepts as the route hands it over: placeable,
    with a type of the enumeration and, for a text field, a value that is a
    string or is missing. *)
Definition storable (f : value) : bool :=
  placeable f &&
  match prop f "type" with VStr s => in_enum s | _ => false end &&
  (negb (is_text (prop f "type")) ||
   match prop f "value" with VStr _ | VUndefined | VNull => true | _ => false end).

(** What [audit_field] returns on a field that is an object. *)
Definition redact (f : value) : fieldInit :=
  FieldInit (prop f "type") (prop f "pdfCoordinates")
    (if is_text (prop f "type") then prop f "value" else VUndefined).

(** A field whose text, where it is a text field with a value, is a string
    the font can encode. *)
Definition writable (E : externals) (f : value) : bool :=
  negb (is_text (prop f "type")) || negb (truthy (prop f "value")) ||
  match prop f "value" with
  | VStr s => encodable (font_encodes E) s
  | _ => false
  end.



Section Pipeline.
Variable E : externals.
Context {G : Engine}.

(** [PDFDocument.load(bytes)] followed by [getPages()]: the pages, with
    nothing added to them yet. *)
Definition PDFDocument_load (b : bytes) : M doc :=
  match pdf_load E b with
  | Some n => mret (replicate n [])
  | None => lift (Throw (PdfError "Failed to parse PDF document"))
  end.

(** Lines 79-200: from the source document to the success response. *)
Definition sign_document (req : request) (pdfId signatureImage : value)
    (fields : list value) : M response :=
  let originalPdfPath := path_join PUBLIC_DIR "sample.pdf" in
  found ← pathExists originalPdfPath;
  if negb found then mret (Response 404 (ErrorBody "Sample PDF not found"))
  else
    originalPdfBytes ← readFile originalPdfPath;
    let originalHash := calculateSHA256 E originalPdfBytes in
    pages ← PDFDocument_load originalPdfBytes;
    today ← Date_now;
    drawn ← lift (renderFields E signatureImage today pages fields);
    let signedPdfBytes := pdf_save E originalPdfBytes drawn in
    let signedHash := calculateSHA256 E signedPdfBytes in
    timestamp ← Date_now;
    let signedPdfFilename := "signed_" +:+ pretty timestamp +:+ ".pdf" in
    let signedPdfPath := path_join SIGNED_DIR signedPdfFilename in
    _ ← writeFile signedPdfPath signedPdfBytes;
    let publicPath := path_join PUBLIC_DIR signedPdfFilename in
    _ ← copy signedPdfPath publicPath;
    let publicUrl := "/pdfs/" +:+ signedPdfFilename in
    auditFields ← lift (audit_fields fields);
    created ← Date_now;
    audit ← Audit_save E
      (AuditInit pdfId originalHash signedHash auditFields created
         (req_ip req) (req_userAgent req) None);
    mret (Response 200
            (SuccessBody "PDF signed successfully" publicUrl originalHash signedHash
               (a_id audit) ("/api/download/" +:+ signedPdfFilename))).

(** Lines 63-77, then the rest. *)
Definition sign_checked (req : request) : M response :=
  pdfId ← lift (get_prop (req_body req) "pdfId");
  fields ← lift (get_prop (req_body req) "fields");
  signatureImage ← lift (get_prop (req_body req) "signatureImage");
  if negb (truthy pdfId) || negb (isArray fields)
  then mret (Response 400
               (ErrorBody "Missing required fields: pdfId and fields array are required"))
  else
    invalidFields ← lift (invalid_fields (array_items fields));
    if (0 <? length invalidFields)%nat
    then mret (Response 400
                 (ErrorBody ("Invalid coordinates for "
                             +:+ pretty (length invalidFields) +:+ " field(s)")))
    else sign_document req pdfId signatureImage (array_items fields).

(** The route handler: the [try] above and its [catch]. *)
Definition signPdf (req : request) : M response :=
  try_catch (sign_checked req)
    (λ error, mret (Response 500 (ErrorDetails "Failed to sign PDF" error))).
End Pipeline.

(** The file name the route derives from the clock, and the world it has
    written the signed document and its public copy into. *)
Definition signed_name (w : world) : string := "signed_" +:+ pretty (clock w) +:+ ".pdf".

Definition after_writes (w : world) (signedPdfBytes : bytes) : world :=
  World
    (<[path_join PUBLIC_DIR (signed_name w) := signedPdfBytes]>
       (<[path_join SIGNED_DIR (signed_name w) := signedPdfBytes]> (files w)))
    (audits w) (clock w)
    (path_join SIGNED_DIR (signed_name w) :: path_join PUBLIC_DIR "sample.pdf" :: reads w).

(** The response of line 192 for a stored audit record. *)
Definition success_response (w : world) (originalHash signedHash : string)
    (audit : auditRecord) : response :=
  Response 200
    (SuccessBody "PDF signed successfully" ("/pdfs/" +:+ signed_name w)
       originalHash signedHash (a_id audit) ("/api/download/" +:+ signed_name w)).

(** How a request's field [f] appears in the stored record: the type as
    sent; for a text field the value as sent (the schema's [''] when none
    was sent); for any other field the schema's default value [''], whatever
    value the request carried. *)
Definition stored_as (f : value) (af : auditField) : Prop :=
  (forall s, prop f "type" = VStr s -> af_type af = s) /\
  (is_text (prop f "type") = true ->
   (forall s, prop f "value" = VStr s -> af_value af = Some s) /\
   (prop f "value" = VUndefined -> af_value af = Some ""%string)) /\
  (is_text (prop f "type") = false -> af_value af = Some ""%string).

(* ===================================================================== *)
(** ** Queries of the audit model (Audit.js 64-82) *)

(** The order of [.sort({ timestamp: -1 })]: newest first. *)
Definition newer_first (a b : auditRecord) : Prop :=
  (a_timestamp b <= a_timestamp a)%Z.

#[export] Instance newer_first_dec : RelDecision newer_first :=
  λ a b, Z_le_dec (a_timestamp b) (a_timestamp a).

Definition sort_newest_first (found : list auditRecord) : list auditRecord :=
  merge_sort newer_first found.

(** [.limit(n)]: the first [n] documents; the database reads 0 as no limit. *)
Definition query_limit (n : nat) (found : list auditRecord) : list auditRecord :=
  match n with 0%nat => found | _ => take n found end.

(** The filter [{ $or: [{ originalHash: hash }, { signedHash: hash }] }]. *)
Definition has_hash (hash : string) (r : auditRecord) : bool :=
  String.eqb (a_originalHash r) hash || String.eqb (a_signedHash r) hash.

(** [auditSchema.statics.findByHash], lines 65-72. *)
Definition findByHash (hash : string) (collection : list auditRecord) : list auditRecord :=
  sort_newest_first (List.filter (has_hash hash) collection).

(** [auditSchema.statics.getRecent], lines 75-77; [None] is the call
    without an argument, for which the parameter defaults to 50. *)
Definition getRecent (limit : option nat) (collection : list auditRecord)
    : list auditRecord :=
  query_limit (default 50%nat limit) (sort_newest_first collection).

(** [auditSchema.methods.verifyIntegrity], lines 80-82. *)
Definition verifyIntegrity (this : auditRecord) : bool :=
  negb (String.eqb (a_originalHash this) (a_signedHash this)).

(** [Audit.findById(id)]: the document with that identifier, if any. *)
Definition findById (id : nat) (collection : list auditRecord) : option auditRecord :=
  List.find (λ r, Nat.eqb (a_id r) id) collection.

(* ===================================================================== *)
(** ** The other routes (signPdf.js 207-241) *)

(** An answer of the read-only routes: a status with a payload, or a status
    with [{ error }]. *)
Inductive reply (A : Type) : Type :=
| Reply (status : nat) (payload : A)
| ErrorReply (status : nat) (error : string).
Arguments Reply {A} status payload.
Arguments ErrorReply {A} status error.

(** A file name that is one path segment; [path.join] would normalise any
    other, which [path_join] does not model. *)
Fixpoint no_separator (s : string) : bool :=
  match s with
  | EmptyString => true
  | String c rest => negb (Ascii.eqb c "/"%char) && no_separator rest
  end.

Definition single_segment (name : string) : bool :=
  no_separator name && negb (String.eqb name "") &&
  negb (String.eqb name ".") && negb (String.eqb name "..").

(** [router.get('/download/:filename', ...)], lines 209-218: the file of
    that name under the signed directory, sent as an attachment with a
    time-stamped name. *)
Definition download (filename : string) : M (reply (string * bytes)) :=
  try_catch
    (let filePath := path_join SIGNED_DIR filename in
     found ← pathExists filePath;
     if negb found then mret (ErrorReply 404 "File not found")
     else
       now ← Date_now;
       content ← readFile filePath;
       mret (Reply 200 ("signed-document-" +:+ pretty now +:+ ".pdf", content)))
    (λ err, mret (ErrorReply 500 "Failed to download file")).

(** [router.get('/audits', ...)], lines 233-241. *)
Definition audits_route : M (reply (list auditRecord)) :=
  try_catch
    (λ w, (Ok (Reply 200 (query_limit 50 (sort_newest_first (audits w)))), w))
    (λ err, mret (ErrorReply 500 "Failed to fetch audits")).

Section AuditRoute.
(** The model's cast of the route parameter to an identifier; [None] is
    the CastError it raises on a string that is none. *)
Variable castObjectId : string -> option nat.

(** [router.get('/audit/:id', ...)], lines 222-231. *)
Definition audit_route (id : string) : M (reply auditRecord) :=
  try_catch
    (λ w,
       match castObjectId id with
       | None => (Throw (ValidationError "Cast to ObjectId failed"), w)
       | Some oid =>
           match findById oid (audits w) with
           | None => (Ok (ErrorReply 404 "Audit trail not found"), w)
           | Some audit => (Ok (Reply 200 audit), w)
           end
       end)
    (λ err, mret (ErrorReply 500 "Failed to fetch audit trail")).
End AuditRoute.

(* ===================================================================== *)
(** ** Ways a sign request can end *)

(** The request's checks of lines 65-77 fail. *)
Definition bad_request (body : value) : Prop :=
  truthy (prop body "pdfId") = false \/
  isArray (prop body "fields") = false \/
  exists items, prop body "fields" = VArr items /\ existsb invalid items = true.

(** The world once the source document has been read and nothing more. *)
Definition after_read (w : world) : world :=
  World (files w) (audits w) (clock w) (path_join PUBLIC_DIR "sample.pdf" :: reads w).

(** Every way the route answers, with the world it leaves behind. *)
Inductive sign_outcome {G : Engine} (E : externals) (req : request) (w : world)
    : response -> world -> Prop :=
| rejected (msg : string) :
    bad_request (req_body req) ->
    sign_outcome E req w (Response 400 (ErrorBody msg)) w
| source_missing :
    files w !! path_join PUBLIC_DIR "sample.pdf" = None ->
    sign_outcome E req w (Response 404 (ErrorBody "Sample PDF not found")) w
| failed_before_read (e : exn) :
    sign_outcome E req w (Response 500 (ErrorDetails "Failed to sign PDF" e)) w
| failed_after_read (e : exn) (b : bytes) :
    files w !! path_join PUBLIC_DIR "sample.pdf" = Some b ->
    sign_outcome E req w (Response 500 (ErrorDetails "Failed to sign PDF" e)) (after_read w)
| failed_after_writes (e : exn) (b : bytes) (drawn : doc) :
    files w !! path_join PUBLIC_DIR "sample.pdf" = Some b ->
    sign_outcome E req w (Response 500 (ErrorDetails "Failed to sign PDF" e))
      (after_writes w (pdf_save E b drawn))
| signed (b : bytes) (n : nat) (items : list value) (drawn : doc)
    (afs : list fieldInit) (audit : auditRecord) (w' : world) :
    files w !! path_join PUBLIC_DIR "sample.pdf" = Some b ->
    pdf_load E b = Some n ->
    prop (req_body req) "fields" = VArr items ->
    List.filter invalid items = [] ->
    renderFields E (prop (req_body req) "signatureImage") (clock w)
      (replicate n []) items = Ok drawn ->
    audit_fields items = Ok afs ->
    Audit_save E
      (AuditInit (prop (req_body req) "pdfId") (calculateSHA256 E b)
         (calculateSHA256 E (pdf_save E b drawn)) afs (clock w)
         (req_ip req) (req_userAgent req) None)
      (after_writes w (pdf_save E b drawn)) = (Ok audit, w') ->
    sign_outcome E req w
      (success_response w (calculateSHA256 E b)
         (calculateSHA256 E (pdf_save E b drawn)) audit) w'.

(** The number of drawing operations on all pages. *)
Definition ops_count (pages : doc) : nat := sum_list (length <$> pages).

(* ===================================================================== *)
(** ** A concrete environment and concrete requests *)

Module Demo.
(** Collaborators of a test double: two-page documents, an image embedder
    that rejects whatever it is given, and a font that encodes printable
    ASCII only. *)
Definition env : externals :=
  Externals
    (λ b, "sha256:" +:+ pretty (length b))
    (λ _, Some 2%nat)
    (λ b _, b ++ [Byte.x0a])
    (λ _, [])
    (λ _, None)
    (λ _, None)
    (λ _, "1/1/2026"%string)
    (λ _, None)
    (λ _, None)
    (λ _, false)
    (λ _, eq_refl).

(** The engine the requests below are run on. *)
Definition engine : Engine := Binary64Engine.

Definition world0 : world :=
  World {[ "public/sample.pdf"%string := [Byte.x25; Byte.x50; Byte.x44; Byte.x46] ]}
    [] 1700000000000 [].

Definition box (w page : Q) : value :=
  VObj [("x"%string, VNum 10); ("y"%string, VNum 10); ("width"%string, VNum w);
        ("height"%string, VNum 20); ("page"%string, VNum page)].

Definition field (type : string) (coordinates v : value) : list (string * value) :=
  [("type"%string, VStr type); ("pdfCoordinates"%string, coordinates);
   ("value"%string, v)].

Definition body_of (fields : list value) : list (string * value) :=
  [("pdfId"%string, VStr "doc1");
   ("signatureImage"%string, VStr "data:image/png;base64,AAAA");
   ("fields"%string, VArr fields)].

Definition request_of (fields : list value) : request :=
  Request (VObj (body_of fields)) (Some "127.0.0.1"%string) None.

(** One signature field on page 1, carrying a value of its own. *)
Definition signature_field : list (string * value) :=
  field "signature" (box 100 1) (VStr "payload").

(** One text field on page 7 of the two-page document. *)
Definition text_field : list (string * value) :=
  field "text" (box 100 7) (VStr "Alice").

(** A field with a negative width, and one of an unknown type. *)
Definition narrow_field : list (string * value) :=
  field "text" (box (-100) 1) (VStr "Bob").

Definition stamp_field : list (string * value) :=
  field "stamp" (box 100 1) VUndefined.

(** A text field on page 1.5. *)
Definition fraction_field : list (string * value) :=
  field "text" (box 100 1.5) (VStr "Alice").

(** A text field whose value is the control character U+0001, on page 1
    and on page 7. *)
Definition control_field : list (string * value) :=
  field "text" (box 100 1) (VStr (String "001"%char EmptyString)).



(** Constructor arguments of an audit record with two fields and metadata
    of its own. *)
Definition init : auditInit :=
  AuditInit (VStr "doc1") "a" "b"
    [FieldInit (VStr "signature") (box 100 3) VUndefined;
     FieldInit (VStr "text") (box 100 2) (VStr "Alice")]
    0 None None (Some (Metadata 40 false 9)).
End Demo.

(** More concrete inputs: other collaborators, worlds and records. *)
Module Sample.
(** An embedder that accepts every image as 200 by 100. *)
Definition env_embedding : externals :=
  Externals
    (λ b, "sha256:" +:+ pretty (length b))
    (λ _, Some 2%nat)
    (λ b _, b ++ [Byte.x0a])
    (λ _, [])
    (λ _, Some (Image 200%Q 100%Q))
    (λ _, Some (Image 200%Q 100%Q))
    (λ _, "1/1/2026"%string)
    (λ _, None)
    (λ _, None)
    (λ _, false)
    (λ _, eq_refl).

(** A PDF library that parses nothing. *)
Definition env_unparsable : externals :=
  Externals
    (λ b, "sha256:" +:+ pretty (length b))
    (λ _, None)
    (λ b _, b)
    (λ _, [])
    (λ _, None)
    (λ _, None)
    (λ _, "1/1/2026"%string)
    (λ _, None)
    (λ _, None)
    (λ _, false)
    (λ _, eq_refl).

(** A world with no source document. *)
Definition bare_world : world := World ∅ [] 1700000000000 [].

Definition two_fields : request :=
  Demo.request_of [VObj Demo.signature_field; VObj Demo.text_field].

Definition one_invalid : request :=
  Demo.request_of [VObj Demo.narrow_field; VObj Demo.text_field].

Definition no_fields : request := Demo.request_of [].

(** The answer to [two_fields] in [Demo.world0]. *)
Definition signed_answer : response :=
  Response 200
    (SuccessBody "PDF signed successfully" "/pdfs/signed_1700000000000.pdf"
       "sha256:4" "sha256:5" 0 "/api/download/signed_1700000000000.pdf").

Definition radio_field : list (string * value) :=
  Demo.field "radio" (Demo.box 100 1) VUndefined.


(** Three stored records, with timestamps 10, 30 and 20. *)
Definition record (id : nat) (originalHash signedHash : string) (t : Z) : auditRecord :=
  AuditRecord id "doc1" originalHash signedHash [] t None None (Metadata 0 false 1).

Definition records : list auditRecord :=
  [record 0 "a" "b" 10; record 1 "a" "c" 30; record 2 "d" "a" 20].

(** A world whose audit collection already holds a record, of identifier 1. *)
Definition used_world : world :=
  World (files Demo.world0) [record 1 "a" "b" 10] 1700000000000 [].
End Sample.

(* ===================================================================== *)
(** * Properties *)

(** ** Comparisons on rationals *)

Section Comparisons.
Local Open Scope Q_scope.

Lemma Qle_bool_false (a b : Q) : Qle_bool a b = false -> b < a.
Proof.
  intros Hf. apply Qnot_le_lt. intros Hle.
  apply Qle_bool_iff in Hle. congruence.
Qed.

Lemma Qle_bool_true (a b : Q) : Qle_bool a b = true -> a <= b.
Proof. apply Qle_bool_iff. Qed.

Lemma ge0_iff (n : Q) : ge0 n = true <-> 0 <= n.
Proof. apply Qle_bool_iff. Qed.

Lemma ge1_iff (n : Q) : ge1 n = true <-> 1 <= n.
Proof. apply Qle_bool_iff. Qed.

Lemma gt0_iff (n : Q) : gt0 n = true <-> 0 < n.
Proof.
  unfold gt0. split.
  - intros Hn. apply negb_true_iff in Hn. now apply Qle_bool_false.
  - intros Hn. apply negb_true_iff.
    destruct (Qle_bool n 0) eqn:Hb; trivial.
    apply Qle_bool_iff in Hb. lra.
Qed.

Lemma number_and_true (v : value) (test : Q -> bool) :
  number_and v test = true <-> exists n, v = VNum n /\ test n = true.
Proof.
  split.
  - destruct v; simpl; try discriminate. intros Ht. now exists n.
  - intros (n & -> & Ht). exact Ht.
Qed.
End Comparisons.

(* ===================================================================== *)
(** ** CoordinateValidator *)

Lemma validateCoordinates_inv (v : value) :
  validateCoordinates v = true ->
  exists ps x y w h p,
    v = VObj ps /\
    assoc "x" ps = VNum x /\ assoc "y" ps = VNum y /\
    assoc "width" ps = VNum w /\ assoc "height" ps = VNum h /\
    assoc "page" ps = VNum p /\
    (0 <= x /\ 0 <= y /\ 0 < w /\ 0 < h /\ 1 <= p)%Q.
Proof.
  unfold validateCoordinates.
  destruct v as [| | b | n | s | items | ps]; simpl;
    try discriminate; try (destruct b; discriminate);
    try (destruct (negb (Qeq_bool n 0)); discriminate);
    try (destruct (negb (String.eqb s "")); discriminate).
  intros Hv.
  repeat (apply andb_true_iff in Hv as [Hv ?]).
  repeat match goal with
         | Hn : number_and _ _ = true |- _ =>
             apply number_and_true in Hn as (? & ? & ?)
         end.
  repeat match goal with
         | Hn : ge0 _ = true |- _ => apply ge0_iff in Hn
         | Hn : gt0 _ = true |- _ => apply gt0_iff in Hn
         | Hn : ge1 _ = true |- _ => apply ge1_iff in Hn
         end.
  eauto 20.
Qed.

Lemma validateCoordinates_accepts (ps : list (string * value)) (x y w h p : Q) :
  assoc "x" ps = VNum x -> assoc "y" ps = VNum y ->
  assoc "width" ps = VNum w -> assoc "height" ps = VNum h ->
  assoc "page" ps = VNum p ->
  (0 <= x)%Q -> (0 <= y)%Q -> (0 < w)%Q -> (0 < h)%Q -> (1 <= p)%Q ->
  validateCoordinates (VObj ps) = true.
Proof.
  intros Hx Hy Hw Hh Hp Bx By Bw Bh Bp.
  unfold validateCoordinates. simpl. rewrite Hx, Hy, Hw, Hh, Hp. simpl.
  apply ge0_iff in Bx, By. apply gt0_iff in Bw, Bh. apply ge1_iff in Bp.
  now rewrite Bx, By, Bw, Bh, Bp.
Qed.

(** C1.  [validateCoordinates] returns true exactly on an object whose
    five members x, y, width, height and page are all present and numbers,
    with x >= 0, y >= 0, width > 0, height > 0 and page >= 1; being
    boolean, it returns false on every other input. *)
Theorem validateCoordinates_iff (v : value) :
  validateCoordinates v = true <->
  exists ps x y w h p,
    v = VObj ps /\
    assoc "x" ps = VNum x /\ assoc "y" ps = VNum y /\
    assoc "width" ps = VNum w /\ assoc "height" ps = VNum h /\
    assoc "page" ps = VNum p /\
    (0 <= x /\ 0 <= y /\ 0 < w /\ 0 < h /\ 1 <= p)%Q.
Proof.
  split.
  - apply validateCoordinates_inv.
  - intros (ps & x & y & w & h & p & -> & Hx & Hy & Hw & Hh & Hp & Bx & By & Bw & Bh & Bp).
    now apply (validateCoordinates_accepts ps x y w h p).
Qed.

(** Accepted coordinates are five numbers within the bounds. *)
Lemma validateCoordinates_numeric (v : value) :
  validateCoordinates v = true ->
  exists c, numeric_coords v = Some c /\ (0 < c_width c /\ 0 < c_height c /\ 1 <= c_page c)%Q
            /\ prop v "page" = VNum (c_page c) /\ exists ps, v = VObj ps.
Proof.
  intros Hv. apply validateCoordinates_inv in Hv
    as (ps & x & y & w & h & p & -> & Hx & Hy & Hw & Hh & Hp & Bx & By & Bw & Bh & Bp).
  exists (Coordinates x y w h p). unfold numeric_coords. simpl.
  rewrite Hx, Hy, Hw, Hh, Hp. eauto 10.
Qed.

(* ===================================================================== *)
(** ** AspectFitter *)


(** One side of the fitted image is the box's own, in either arithmetic. *)
Lemma one_side_clamped {num : Type} `{JsArith num} (img : image num) (mw mh : num) :
  let d := calculateImageDimensions img mw mh in
  width d = mw \/ height d = mh.
Proof.
  unfold calculateImageDimensions.
  destruct (js_gt _ _); simpl; [now left | now right].
Qed.

Section AspectFitterRounded.
Local Open Scope Q_scope.












(** Exact arithmetic rounds with no error. *)
Lemma exact_arithmetic_rounds (img : image Q) (mw mh : Q) : rounds_at QArithOps 0 img mw mh.
Proof.
  assert (Hexact : forall q, within 0 q q).
  { intros q. unfold within. split; ring_simplify; apply Qle_refl. }
  unfold rounds_at. cbn [js_gt js_div js_mul QArithOps].
  split; [apply Hexact|]. split; [apply Hexact|]. split.
  - rewrite negb_true_iff. split.
    + apply Qle_bool_false.
    + intros Hlt. destruct (Qle_bool _ _) eqn:Hc; trivial.
      apply Qle_bool_true in Hc. lra.
  - destruct (negb _); apply Hexact.
Qed.



End AspectFitterRounded.


(* ===================================================================== *)
(** ** Page selection *)

Section PageSelection.
Local Open Scope Q_scope.

Lemma Qred_inject_Z (z : Z) : Qred (inject_Z z) = inject_Z z.
Proof. apply Qred_identity. simpl. apply Z.gcd_1_r. Qed.

Lemma is_integer_inject_Z (q : Q) :
  is_integer q = true -> q == inject_Z (Qnum (Qred q)).
Proof.
  unfold is_integer. intros Hd. apply Pos.eqb_eq in Hd.
  rewrite <- (Qred_correct q) at 1.
  destruct (Qred q) as [a d]. simpl in *. subst d. reflexivity.
Qed.

Lemma array_index_integer (len : nat) (q : Q) (z : Z) :
  q == inject_Z z -> (0 <= z)%Z -> (Z.to_nat z < len)%nat ->
  array_index len q = Some (Z.to_nat z).
Proof.
  intros Hq Hz Hlen. unfold array_index, is_integer.
  rewrite (Qred_complete _ _ Hq), Qred_inject_Z. simpl.
  apply Z.leb_le in Hz. apply Nat.ltb_lt in Hlen.
  now rewrite Hz, Hlen.
Qed.

Lemma array_index_fraction (len : nat) (q : Q) :
  is_integer q = false -> array_index len q = None.
Proof. unfold array_index. now intros ->. Qed.


Lemma inject_Z_minus_1 (z : Z) : inject_Z z - 1 == inject_Z (z - 1).
Proof. unfold Z.sub. rewrite inject_Z_plus. reflexivity. Qed.

(** An integer page number selects page [min(page - 1, n - 1)]. *)
Lemma page_at_integer (pages : doc) (page : Q) (z : Z) :
  page == inject_Z z -> (1 <= z)%Z -> (1 <= length pages)%nat ->
  page_at pages (pageIndex page pages) =
    Some (Z.to_nat (Z.min (z - 1) (Z.of_nat (length pages) - 1))).
Proof.
  intros Hp Hz Hn. unfold page_at, pageIndex, Math_min, num_of_nat.
  destruct (Qle_bool _ _) eqn:Hcmp.
  - apply Qle_bool_true in Hcmp.
    rewrite Hp, !inject_Z_minus_1, <- Zle_Qle in Hcmp.
    rewrite Z.min_l by lia.
    apply array_index_integer; try lia.
    now rewrite Hp, inject_Z_minus_1.
  - apply Qle_bool_false in Hcmp.
    rewrite Hp, !inject_Z_minus_1, <- Zlt_Qlt in Hcmp.
    rewrite Z.min_r by lia.
    apply array_index_integer; try lia.
    apply inject_Z_minus_1.
Qed.


(** A page number that is not an integer and lies below the page count
    selects no page. *)
Lemma page_at_fraction (pages : doc) (page : Q) :
  is_integer (page - 1) = false -> page < num_of_nat (length pages) ->
  page_at pages (pageIndex page pages) = None.
Proof.
  intros Hfrac Hlt. unfold page_at, pageIndex, Math_min.
  destruct (Qle_bool _ _) eqn:Hcmp.
  - now apply array_index_fraction.
  - apply Qle_bool_false in Hcmp. lra.
Qed.
(** An integer page number from 1 on always selects a page. *)
Lemma page_selection_total (pages : doc) (c : coordinates) :
  1 <= c_page c -> (1 <= length pages)%nat -> is_integer (c_page c) = true ->
  exists i, page_at pages (pageIndex (c_page c) pages) = Some i.
Proof.
  intros Hp Hn Hint. apply is_integer_inject_Z in Hint.
  set (z := Qnum (Qred (c_page c))) in *.
  assert (Hz : (1 <= z)%Z) by (rewrite Zle_Qle; now rewrite <- Hint).
  rewrite (page_at_integer pages _ z Hint Hz Hn). eauto.
Qed.
End PageSelection.

(* ===================================================================== *)
(** ** FieldRenderer *)

Section RendererFacts.
Variable E : externals.
Context {G : Engine}.
Local Open Scope Q_scope.

Lemma draw_on_page (pages : doc) (i : nat) (op : drawop) :
  draw pages (Some i) op = Ok (add_ops i [op] pages).
Proof. reflexivity. Qed.

Lemma draw_inv (pages pages' : doc) (pdfPage : option nat) (op : drawop) :
  draw pages pdfPage op = Ok pages' ->
  exists i, pdfPage = Some i /\ pages' = add_ops i [op] pages.
Proof. destruct pdfPage as [i|]; [|discriminate]. intros [= <-]. eauto. Qed.

Lemma drawText_on_page (pages : doc) (i : nat) (s : string) (x y size : Q) (fill : color) :
  encodable (font_encodes E) s = true ->
  drawText E pages (Some i) (VStr s) x y size fill
  = Ok (add_ops i [DrawText (VStr s) x y size fill] pages).
Proof. intros He. unfold drawText. now rewrite He. Qed.

(** A text that is no string, or a string the font cannot encode, makes
    [drawText] throw. *)
Lemma drawText_refused (pages : doc) (pdfPage : option nat) (text : value)
    (x y size : Q) (fill : color) :
  match text with VStr s => encodable (font_encodes E) s | _ => false end = false ->
  exists e, drawText E pages pdfPage text x y size fill = Throw e.
Proof.
  intros Hbad. unfold drawText. destruct pdfPage as [i|]; [|eauto].
  destruct text; eauto. rewrite Hbad. eauto.
Qed.

Lemma drawText_inv (pages pages' : doc) (pdfPage : option nat) (text : value)
    (x y size : Q) (fill : color) :
  drawText E pages pdfPage text x y size fill = Ok pages' ->
  exists i, pdfPage = Some i /\ pages' = add_ops i [DrawText text x y size fill] pages.
Proof.
  unfold drawText. destruct pdfPage as [i|]; [|discriminate].
  destruct text; try discriminate.
  destruct (encodable _ _); [|discriminate]. intros [= <-]. eauto.
Qed.

Lemma add_ops_nil (i : nat) (pages : doc) : add_ops i [] pages = pages.
Proof. unfold add_ops. apply list_alter_id. intros ops. apply app_nil_r. Qed.

Lemma add_ops_app (i : nat) (a b : list drawop) (pages : doc) :
  add_ops i b (add_ops i a pages) = add_ops i (a ++ b) pages.
Proof.
  unfold add_ops. rewrite list_alter_alter_eq.
  apply list_alter_ext; trivial. intros ops _. simpl. now rewrite app_assoc.
Qed.

Lemma add_ops_length (i : nat) (ops : list drawop) (pages : doc) :
  length (add_ops i ops pages) = length pages.
Proof. apply length_alter. Qed.

Lemma add_ops_other (i j : nat) (ops : list drawop) (pages : doc) :
  i ≠ j -> add_ops i ops pages !! j = pages !! j.
Proof. apply list_lookup_alter_ne. Qed.

Lemma add_ops_same (i : nat) (ops drawn : list drawop) (pages : doc) :
  pages !! i = Some drawn -> add_ops i ops pages !! i = Some (drawn ++ ops).
Proof. intros Hi. unfold add_ops. now rewrite list_lookup_alter_eq, Hi. Qed.

(** A rectangle and then a text the font encodes, on an existing page. *)
Lemma draw_then_text (pages : doc) (i : nat) (op : drawop) (s : string)
    (x y size : Q) (fill : color) :
  encodable (font_encodes E) s = true ->
  (pages1 ← draw pages (Some i) op; drawText E pages1 (Some i) (VStr s) x y size fill)
  = Ok (add_ops i [op; DrawText (VStr s) x y size fill] pages).
Proof.
  intros He. rewrite draw_on_page. cbn [mbind result_bind].
  rewrite (drawText_on_page _ _ _ _ _ _ _ He). now rewrite add_ops_app.
Qed.

(** The placeholder of the signature case, on an existing page. *)
Lemma drawSignaturePlaceholder_on_page (pages : doc) (i : nat) (c : coordinates) :
  drawSignaturePlaceholder E pages (Some i) c =
  Ok (add_ops i
        [DrawRectangle (c_x c) (c_y c) (c_width c) (c_height c) (rgb 1 0 0) 1 (rgb 1 0.9 0.9);
         DrawText (VStr "SIGNATURE") (c_x c ⊕ 5) (c_y c ⊕ c_height c ⊘ 2 ⊖ 6) 10 (rgb 1 0 0)]
        pages).
Proof. unfold drawSignaturePlaceholder. now apply draw_then_text. Qed.

(** The image of the signature case, on an existing page. *)
Lemma drawSignatureImage_inv (signatureImage : value) (pages pages' : doc)
    (pdfPage : option nat) (c : coordinates) :
  drawSignatureImage E signatureImage pages pdfPage c = Ok pages' ->
  exists s img i,
    signatureImage = VStr s /\ embedSignature E s = Some img /\ pdfPage = Some i /\
    let d := calculateImageDimensions (H := engine_arith) img (c_width c) (c_height c) in
    pages' = add_ops i
               [DrawImage img (c_x c ⊕ xOffset d) (c_y c ⊕ yOffset d) (width d) (height d) 0.9]
               pages.
Proof.
  unfold drawSignatureImage. destruct signatureImage as [| | | |s| |]; try discriminate.
  destruct (embedSignature E s) as [img|] eqn:He; [|discriminate].
  intros Hd. apply draw_inv in Hd as (i & -> & ->). exists s, img, i.
  split; [reflexivity|]. split; [exact He|]. split; reflexivity.
Qed.

(** On an existing page every case of the switch whose text can be drawn
    completes; what it does is add operations to that page, at least one
    exactly when the case makes a drawing call. *)
Lemma renderKind_on_page (signatureImage v : value) (now : Z) (pages : doc)
    (i : nat) (c : coordinates) (k : fieldKind) :
  text_ok E v k ->
  exists ops,
    renderKind E signatureImage v now pages (Some i) c k = Ok (add_ops i ops pages) /\
    (ops = [] <-> draws signatureImage v k = false).
Proof.
  intros Htext.
  assert (Hnone : exists ops : list drawop,
            Ok pages = Ok (add_ops i ops pages) /\ (ops = [] <-> false = false)).
  { exists []. now rewrite add_ops_nil. }
  assert (Hsome : forall ops : list drawop, ops <> [] ->
            exists ops', Ok (add_ops i ops pages) = Ok (add_ops i ops' pages) /\
                         (ops' = [] <-> true = false)).
  { intros ops Hne. exists ops. split; [reflexivity|]. split; [contradiction | discriminate]. }
  destruct c as [x y w h p]. destruct k; cbn [renderKind draws].
  - destruct (truthy signatureImage); [|exact Hnone].
    destruct (drawSignatureImage E signatureImage pages (Some i) _) as [pages1|e] eqn:Hd.
    + apply drawSignatureImage_inv in Hd as (s & img & j & _ & _ & [= <-] & ->).
      now apply Hsome.
    + rewrite drawSignaturePlaceholder_on_page. now apply Hsome.
  - destruct (truthy v) eqn:Hv; [|exact Hnone].
    destruct (Htext eq_refl Hv) as (s & -> & He).
    rewrite (draw_then_text _ _ _ _ _ _ _ _ He). now apply Hsome.
  - rewrite (draw_then_text _ _ _ _ _ _ _ _ (date_encodable E now)). now apply Hsome.
  - rewrite draw_on_page. now apply Hsome.
  - rewrite draw_then_text by reflexivity. now apply Hsome.
Qed.

(** A text field with a value that is no string, or that the font cannot
    encode, makes the case throw, on any page. *)
Lemma renderKind_text_refused (signatureImage v : value) (now : Z) (pages : doc)
    (pdfPage : option nat) (c : coordinates) :
  truthy v = true ->
  match v with VStr s => encodable (font_encodes E) s | _ => false end = false ->
  exists e, renderKind E signatureImage v now pages pdfPage c KText = Throw e.
Proof.
  intros Hv Hbad. destruct c as [x y w h p]. cbn [renderKind]. rewrite Hv.
  destruct pdfPage as [i|]; [|eexists; reflexivity].
  rewrite draw_on_page. cbn [mbind result_bind]. now apply drawText_refused.
Qed.

Lemma numeric_coords_object (v : value) (c : coordinates) :
  numeric_coords v = Some c -> exists ps, v = VObj ps.
Proof.
  destruct v; try discriminate. eauto.
Qed.

(** What the loop iteration does once the coordinates are read and a case
    of the switch is chosen. *)
Lemma renderField_kind (signatureImage : value) (now : Z) (pages : doc)
    (ps : list (string * value)) (c : coordinates) (k : fieldKind) :
  numeric_coords (assoc "pdfCoordinates" ps) = Some c ->
  switch_type (assoc "type" ps) = Some k ->
  renderField E signatureImage now pages (VObj ps) =
  renderKind E signatureImage (assoc "value" ps) now pages
    (page_at pages (pageIndex (c_page c) pages)) c k.
Proof.
  intros Hc Hk. unfold renderField. cbn [get_prop prop mbind result_bind].
  destruct (numeric_coords_object _ _ Hc) as [cps Hobj].
  rewrite Hobj in *. cbn [truthy negb]. now rewrite Hc, Hk.
Qed.

(** A type outside the five cases: the iteration draws nothing. *)
Lemma renderField_unknown_type (signatureImage : value) (now : Z) (pages : doc)
    (ps : list (string * value)) (c : coordinates) :
  numeric_coords (assoc "pdfCoordinates" ps) = Some c ->
  switch_type (assoc "type" ps) = None ->
  renderField E signatureImage now pages (VObj ps) = Ok pages.
Proof.
  intros Hc Hk. unfold renderField. cbn [get_prop prop mbind result_bind].
  destruct (numeric_coords_object _ _ Hc) as [cps Hobj].
  rewrite Hobj in *. cbn [truthy negb]. now rewrite Hc, Hk.
Qed.

Lemma switch_type_text (type : value) :
  switch_type type = Some KText <-> is_text type = true.
Proof.
  destruct type as [| | | |s| |]; cbn [switch_type is_text]; try (split; discriminate).
  destruct (String.eqb s "signature") eqn:Hsig.
  - apply String.eqb_eq in Hsig. subst s. split; discriminate.
  - destruct (String.eqb s "text"); [tauto|].
    repeat (destruct (String.eqb s _)); split; discriminate.
Qed.

(** A writable field satisfies [text_ok] for the case it selects. *)
Lemma writable_text_ok (ps : list (string * value)) (k : fieldKind) :
  writable E (VObj ps) = true ->
  switch_type (assoc "type" ps) = Some k ->
  text_ok E (assoc "value" ps) k.
Proof.
  unfold writable. cbn [prop]. intros Hw Hk -> Hv.
  apply switch_type_text in Hk. rewrite Hk, Hv in Hw. cbn [negb orb] in Hw.
  destruct (assoc "value" ps); try discriminate. eauto.
Qed.

(** A writable field with numeric coordinates whose page resolves: the
    loop iteration completes and only adds to that page. *)
Lemma renderField_on_page (signatureImage : value) (now : Z) (pages : doc)
    (ps : list (string * value)) (c : coordinates) (i : nat) :
  numeric_coords (assoc "pdfCoordinates" ps) = Some c ->
  page_at pages (pageIndex (c_page c) pages) = Some i ->
  writable E (VObj ps) = true ->
  exists ops, renderField E signatureImage now pages (VObj ps) = Ok (add_ops i ops pages).
Proof.
  intros Hc Hp Hw.
  destruct (switch_type (assoc "type" ps)) as [k|] eqn:Hk.
  - rewrite (renderField_kind _ _ _ _ c k), Hp by trivial.
    destruct (renderKind_on_page signatureImage (assoc "value" ps) now pages i c k
                (writable_text_ok ps k Hw Hk)) as (ops & Hr & _).
    eauto.
  - rewrite (renderField_unknown_type _ _ _ _ c Hc Hk).
    exists []. now rewrite add_ops_nil.
Qed.

(** The coercions left out of the embedding are never met by a field whose
    coordinates passed validation. *)
Lemma renderField_inside_model (signatureImage : value) (now : Z) (pages : doc)
    (f : value) (msg : string) :
  validateCoordinates (prop f "pdfCoordinates") = true ->
  renderField E signatureImage now pages f <> Throw (OutsideModel msg).
Proof.
  intros Hv.
  destruct (validateCoordinates_numeric _ Hv) as (c & Hc & _ & _ & _).
  destruct f as [| | | | | |ps]; try discriminate. cbn [prop] in *.
  assert (Hdraw : forall (pgs : doc) pdfPage op, draw pgs pdfPage op <> Throw (OutsideModel msg)).
  { intros pgs pdfPage op. unfold draw. destruct pdfPage; discriminate. }
  assert (Htext : forall (pgs : doc) pdfPage t x y sz fill,
            drawText E pgs pdfPage t x y sz fill <> Throw (OutsideModel msg)).
  { intros pgs pdfPage t x y sz fill. unfold drawText.
    destruct pdfPage; [|discriminate]. destruct t; try discriminate.
    destruct (encodable _ _); discriminate. }
  assert (Htwo : forall (pgs : doc) pdfPage op t x y sz fill,
            (pages1 ← draw pgs pdfPage op; drawText E pages1 pdfPage t x y sz fill)
            <> Throw (OutsideModel msg)).
  { intros pgs pdfPage op t x y sz fill.
    destruct (draw pgs pdfPage op) as [pages1|e] eqn:Hd; cbn [mbind result_bind].
    - apply Htext.
    - rewrite <- Hd. apply Hdraw. }
  destruct (switch_type (assoc "type" ps)) as [k|] eqn:Hk.
  - rewrite (renderField_kind _ _ _ _ c k Hc Hk).
    destruct c as [x y w h p]. destruct k; cbn [renderKind].
    + destruct (truthy signatureImage); [|discriminate].
      destruct (drawSignatureImage _ _ _ _ _); [discriminate|].
      apply Htwo.
    + destruct (truthy _); [|discriminate]. apply Htwo.
    + apply Htwo.
    + apply Hdraw.
    + apply Htwo.
  - now rewrite (renderField_unknown_type _ _ _ _ c Hc Hk).
Qed.



(** C8, as the code has it.  A text field on a page that exists: with a
    non-empty string value that the font can encode it draws a white
    rectangle with a black border of width 0.5 over the field's box and then
    the value as 12-point black text at [x + 5], with its baseline at
    [y + height / 2 - 6], half the font size below the box's horizontal
    mid-line, as the engine computes them; with a non-empty value the font
    cannot encode the iteration throws; with the value absent or empty it
    draws nothing. *)
Theorem text_field_rendering (signatureImage : value) (now : Z) (pages : doc)
    (ps : list (string * value)) (c : coordinates) (i : nat) :
  assoc "type" ps = VStr "text" ->
  numeric_coords (assoc "pdfCoordinates" ps) = Some c ->
  page_at pages (pageIndex (c_page c) pages) = Some i ->
  (forall s, assoc "value" ps = VStr s -> s <> ""%string ->
     if encodable (font_encodes E) s
     then renderField E signatureImage now pages (VObj ps) =
          Ok (add_ops i
                [DrawRectangle (c_x c) (c_y c) (c_width c) (c_height c)
                   (rgb 0 0 0) 0.5 (rgb 1 1 1);
                 DrawText (VStr s) (c_x c ⊕ 5) (c_y c ⊕ c_height c ⊘ 2 ⊖ 6) 12 (rgb 0 0 0)]
                pages)
     else exists e, renderField E signatureImage now pages (VObj ps) = Throw e) /\
  (assoc "value" ps = VUndefined \/ assoc "value" ps = VStr "" ->
     renderField E signatureImage now pages (VObj ps) = Ok pages).
Proof.
  intros Ht Hc Hp.
  assert (Hk : switch_type (assoc "type" ps) = Some KText) by now rewrite Ht.
  rewrite (renderField_kind _ _ _ _ c KText Hc Hk), Hp.
  split.
  - intros s Hs Hne. rewrite Hs.
    assert (Hv : truthy (VStr s) = true).
    { cbn [truthy]. apply String.eqb_neq in Hne. now rewrite Hne. }
    destruct (encodable (font_encodes E) s) eqn:He.
    + destruct c as [x y w h p]. cbn [renderKind c_x c_y c_width c_height].
      rewrite Hv. now apply draw_then_text.
    + now apply renderKind_text_refused.
  - destruct c as [x y w h p]. cbn [renderKind]. intros [-> | ->]; reflexivity.
Qed.

End RendererFacts.

(* ===================================================================== *)
(** ** The audit model *)

Section AuditFacts.
Variable E : externals.
Local Open Scope Q_scope.

Lemma bind_ok {A B : Type} (r : result A) (f : A -> result B) (b : B) :
  (r ≫= f) = Ok b -> exists a, r = Ok a /\ f a = Ok b.
Proof. destruct r as [a|e]; [|discriminate]. intros Hf. now exists a. Qed.

Lemma validate_coordinates_doc_page (v : value) (c : coordinates) :
  validate_coordinates_doc E v = Ok c -> 1 <= c_page c.
Proof.
  unfold validate_coordinates_doc. destruct v; try discriminate. intros Hv.
  repeat (apply bind_ok in Hv as (? & _ & Hv)).
  destruct (Qle_bool 1 _) eqn:Hmin; [|discriminate].
  injection Hv as <-. now apply Qle_bool_true.
Qed.

(** What validation guarantees of a stored field. *)
Lemma validate_field_inv (f : fieldInit) (af : auditField) :
  validate_field E f = Ok af ->
  in_enum (af_type af) = true /\ 1 <= c_page (af_coordinates af) /\
  (fi_value f = VUndefined -> af_value af = Some ""%string) /\
  (forall s, fi_type f = VStr s -> af_type af = s) /\
  (forall s, fi_value f = VStr s -> af_value af = Some s).
Proof.
  unfold validate_field. intros Hv.
  apply bind_ok in Hv as (type & Htype & Hv).
  destruct (in_enum type) eqn:Henum; [|discriminate]. cbn [negb] in Hv.
  apply bind_ok in Hv as (c & Hc & Hv).
  apply bind_ok in Hv as (v & Hval & Hv).
  injection Hv as <-. cbn [af_type af_coordinates af_value].
  split; [exact Henum|]. split; [now apply validate_coordinates_doc_page in Hc|].
  split; [|split].
  - intros Hu. rewrite Hu in Hval. now injection Hval as <-.
  - intros s Hs. rewrite Hs in Htype. cbn in Htype.
    unfold required_string in Htype. cbn in Htype.
    destruct (String.eqb s ""); [discriminate|]. now injection Htype as <-.
  - intros s Hs. rewrite Hs in Hval. now injection Hval as <-.
Qed.

Lemma validate_fields_inv (fs : list fieldInit) (afs : list auditField) :
  validate_fields E fs = Ok afs ->
  Forall2 (λ f af, validate_field E f = Ok af) fs afs.
Proof.
  revert afs. induction fs as [|f fs IH]; intros afs Hv.
  - injection Hv as <-. constructor.
  - cbn [validate_fields] in Hv.
    apply bind_ok in Hv as (af & Hf & Hv).
    apply bind_ok in Hv as (rest & Hrest & Hv).
    injection Hv as <-. constructor; auto.
Qed.


Lemma validate_inv (id : nat) (d : auditInit) (this : auditRecord) :
  validate E id d = Ok this ->
  validate_fields E (i_fields d) = Ok (a_fields this).
Proof.
  unfold validate. intros Hv.
  repeat (apply bind_ok in Hv as (? & ? & Hv)).
  injection Hv as <-. assumption.
Qed.

Lemma pre_save_fields (this : auditRecord) : a_fields (pre_save this) = a_fields this.
Proof. reflexivity. Qed.

(** [Math.max(...pages, 1)] is an upper bound of its arguments and is one
    of them. *)
Lemma Math_max_spread_upper (xs : list Q) (last : Q) :
  last <= Math_max_spread xs last /\ Forall (λ x, x <= Math_max_spread xs last) xs.
Proof.
  induction xs as [|x xs [IHl IHx]]; cbn [Math_max_spread fold_right].
  - split; [apply Qle_refl | constructor].
  - fold (Math_max_spread xs last). unfold Math_max.
    destruct (Qle_bool x _) eqn:Hcmp.
    + apply Qle_bool_true in Hcmp. split; trivial. constructor; trivial.
    + apply Qle_bool_false in Hcmp. split; [lra|].
      constructor; [apply Qle_refl|].
      eapply Forall_impl; [exact IHx|]. cbn. intros y Hy. lra.
Qed.

Lemma Math_max_spread_attained (xs : list Q) (last : Q) :
  Math_max_spread xs last = last \/ In (Math_max_spread xs last) xs.
Proof.
  induction xs as [|x xs IH]; cbn [Math_max_spread fold_right]; [now left|].
  fold (Math_max_spread xs last). unfold Math_max.
  destruct (Qle_bool x _).
  - destruct IH as [IH|IH]; [now left | right; now right].
  - right. now left.
Qed.

(** The page count of the hook when every page is at least 1: the largest
    page, or 1 when there is no field. *)
Lemma pageCount_is_max (xs : list Q) :
  Forall (λ x, 1 <= x) xs ->
  let m := Math_max_spread xs 1 in
  Forall (λ x, x <= m) xs /\
  (xs = [] -> m = 1) /\
  (xs <> [] -> exists x, In x xs /\ x == m).
Proof.
  intros Hge m. destruct (Math_max_spread_upper xs 1) as [Hl Hu].
  split; [exact Hu|]. split; [now intros ->|].
  intros Hne. destruct (Math_max_spread_attained xs 1) as [Hlast|Hin].
  - destruct xs as [|x xs]; [congruence|].
    exists x. split; [now left|].
    apply Forall_inv in Hge, Hu. fold m in Hlast, Hu. rewrite Hlast in *.
    now apply Qle_antisym.
  - exists m. split; [exact Hin | reflexivity].
Qed.
End AuditFacts.

Section AuditSaveFacts.
Variable E : externals.
Local Open Scope Q_scope.

Lemma Audit_save_inv (d : auditInit) (w w' : world) (r : auditRecord) :
  Audit_save E d w = (Ok r, w') ->
  exists this, validate E (fresh_id (audits w)) d = Ok this /\ r = pre_save this /\
    w' = World (files w) (audits w ++ [r]) (clock w) (reads w).
Proof.
  unfold Audit_save. destruct (validate E _ d) as [this|e]; [|discriminate].
  intros [= <- <-]. eauto.
Qed.

Lemma validated_pages (fs : list fieldInit) (afs : list auditField) :
  validate_fields E fs = Ok afs ->
  Forall (λ p, 1 <= p) (map (λ f, c_page (af_coordinates f)) afs).
Proof.
  intros Hv. apply validate_fields_inv in Hv.
  induction Hv as [|f af fs afs Hf _ IH]; cbn [map]; constructor; trivial.
  now apply validate_field_inv in Hf as (_ & Hp & _).
Qed.

(** C3.  When the save of an audit record completes, its metadata is the
    derived one: [totalFields] is the number of fields, [hasSignature] says
    whether some field has type "signature", and [pageCount] is the largest
    [coordinates.page] of the fields, or 1 when there are none.  Metadata
    supplied at construction changes nothing: the save gives the same
    record for any. *)
Theorem metadata_derived_on_save (d : auditInit) (w w' : world) (r : auditRecord) :
  Audit_save E d w = (Ok r, w') ->
  let pages := map (λ f, c_page (af_coordinates f)) (a_fields r) in
  let m := a_metadata r in
  totalFields m = length (a_fields r) /\
  (hasSignature m = true <-> exists f, In f (a_fields r) /\ af_type f = "signature"%string) /\
  (Forall (λ p, p <= pageCount m) pages /\
   (a_fields r <> [] -> exists p, In p pages /\ p == pageCount m) /\
   (a_fields r = [] -> pageCount m = 1)) /\
  (forall supplied,
     Audit_save E
       (AuditInit (i_pdfId d) (i_originalHash d) (i_signedHash d) (i_fields d)
          (i_timestamp d) (i_ipAddress d) (i_userAgent d) supplied) w
     = (Ok r, w')).
Proof.
  intros Hs pages m.
  pose proof Hs as Hinv.
  apply Audit_save_inv in Hinv as (this & Hv & Hr & Hw).
  assert (Hpages : Forall (λ p, 1 <= p) pages).
  { subst pages r. rewrite pre_save_fields.
    apply (validated_pages (i_fields d)). now apply validate_inv in Hv. }
  assert (Hm : m = Metadata (length (a_fields r))
                 (existsb (λ f, String.eqb (af_type f) "signature") (a_fields r))
                 (Math_max_spread pages 1)).
  { subst m pages r. reflexivity. }
  rewrite Hm. cbn [totalFields hasSignature pageCount].
  split; [reflexivity|]. split; [|split].
  - rewrite existsb_exists. split.
    + intros (f & Hin & Heq). exists f. split; trivial. now apply String.eqb_eq.
    + intros (f & Hin & Heq). exists f. split; trivial. now apply String.eqb_eq.
  - destruct (pageCount_is_max pages Hpages) as (Hu & Hnil & Hcons).
    split; [exact Hu|]. split.
    + intros Hne. apply Hcons. subst pages. destruct (a_fields r); [congruence | discriminate].
    + intros Hnil'. apply Hnil. subst pages. now rewrite Hnil'.
  - intros supplied. unfold Audit_save in *. unfold validate in *.
    cbn [i_pdfId i_originalHash i_signedHash i_fields i_timestamp i_ipAddress
         i_userAgent i_metadata].
    destruct (string_path E (i_pdfId d) ≫= required_string "pdfId") as [pdfId|]; [|discriminate].
    cbn [mbind result_bind] in *.
    destruct (required_string "originalHash" _) as [oh|]; [|discriminate].
    destruct (required_string "signedHash" _) as [sh|]; [|discriminate].
    destruct (validate_fields E (i_fields d)) as [afs|]; [|discriminate].
    cbn [pre_save a_id a_pdfId a_originalHash a_signedHash a_fields a_timestamp
         a_ipAddress a_userAgent] in *.
    exact Hs.
Qed.
End AuditSaveFacts.

(* ===================================================================== *)
(** ** DocumentPipeline *)

Section PipelineFacts.
Variable E : externals.
Context {G : Engine}.

Lemma get_prop_readable (f : value) (k : string) :
  nullish f = false -> get_prop f k = Ok (prop f k).
Proof. destruct f; try discriminate; reflexivity. Qed.

Lemma placeable_inv (f : value) :
  placeable f = true ->
  exists ps c, f = VObj ps /\ validateCoordinates (assoc "pdfCoordinates" ps) = true /\
    numeric_coords (assoc "pdfCoordinates" ps) = Some c /\
    is_integer (c_page c) = true /\ (1 <= c_page c)%Q.
Proof.
  destruct f as [| | | | | |ps]; try discriminate. cbn [placeable].
  intros Hp. apply andb_true_iff in Hp as [Hv Hi].
  destruct (validateCoordinates_numeric _ Hv) as (c & Hc & (_ & _ & Hp1) & Hpage & _).
  rewrite Hpage in Hi. cbn in Hi. eauto 10.
Qed.

(** The filter of line 72 on entries it can read. *)
Lemma invalid_fields_filter (items : list value) :
  forallb (λ f, negb (nullish f)) items = true ->
  invalid_fields items = Ok (List.filter invalid items).
Proof.
  induction items as [|f items IH]; [reflexivity|].
  cbn [forallb]. intros Hr. apply andb_true_iff in Hr as [Hf Hr].
  apply negb_true_iff in Hf.
  cbn [invalid_fields List.filter]. rewrite (get_prop_readable _ _ Hf), (IH Hr).
  unfold invalid. cbn [mbind result_bind].
  now destruct (validateCoordinates _).
Qed.

Lemma placeable_readable (items : list value) :
  forallb placeable items = true -> forallb (λ f, negb (nullish f)) items = true.
Proof.
  rewrite !forallb_forall. intros Hp f Hin.
  apply Hp, placeable_inv in Hin as (ps & c & -> & _). reflexivity.
Qed.

Lemma placeable_valid (items : list value) :
  forallb placeable items = true -> List.filter invalid items = [].
Proof.
  induction items as [|f items IH]; [reflexivity|].
  cbn [forallb]. intros Hp. apply andb_true_iff in Hp as [Hf Hp].
  cbn [List.filter]. rewrite (IH Hp).
  apply placeable_inv in Hf as (ps & c & -> & Hv & _).
  unfold invalid. cbn [prop]. now rewrite Hv.
Qed.



End PipelineFacts.

(** Unfolding of the route's monad. *)
Ltac run_route :=
  unfold mbind, M_bind, mret, M_ret, lift, try_catch; cbv beta iota.

Section RouteFacts.
Variable E : externals.
Context {G : Engine}.

Lemma sign_checked_missing (req : request) (w : world) (ps : list (string * value)) :
  req_body req = VObj ps ->
  truthy (assoc "pdfId" ps) = false \/ isArray (assoc "fields" ps) = false ->
  sign_checked E req w =
  (Ok (Response 400
         (ErrorBody "Missing required fields: pdfId and fields array are required")), w).
Proof.
  intros Hb Hmiss. unfold sign_checked. rewrite Hb. cbn [get_prop prop]. run_route.
  destruct Hmiss as [-> | ->]; [reflexivity|].
  now rewrite orb_true_r.
Qed.

Lemma sign_checked_validated (req : request) (w : world) (ps : list (string * value))
    (items : list value) :
  req_body req = VObj ps ->
  truthy (assoc "pdfId" ps) = true ->
  assoc "fields" ps = VArr items ->
  forallb (λ f, negb (nullish f)) items = true ->
  sign_checked E req w =
  if (0 <? length (List.filter invalid items))%nat
  then (Ok (Response 400
              (ErrorBody ("Invalid coordinates for "
                          +:+ pretty (length (List.filter invalid items))
                          +:+ " field(s)"))), w)
  else sign_document E req (assoc "pdfId" ps) (assoc "signatureImage" ps) items w.
Proof.
  intros Hb Hid Hf Hr. unfold sign_checked. rewrite Hb. cbn [get_prop prop]. run_route.
  rewrite Hid, Hf. cbn [negb isArray orb array_items].
  rewrite (invalid_fields_filter _ Hr).
  now destruct (0 <? _)%nat.
Qed.

End RouteFacts.

Section SaveOutcome.
Variable E : externals.

Lemma in_enum_nonempty (s : string) : in_enum s = true -> String.eqb s "" = false.
Proof. destruct s; [discriminate | reflexivity]. Qed.


Lemma validate_coordinates_doc_valid (v : value) :
  validateCoordinates v = true -> exists c, validate_coordinates_doc E v = Ok c.
Proof.
  intros Hv. apply validateCoordinates_inv in Hv
    as (ps & x & y & w & h & p & -> & Hx & Hy & Hw & Hh & Hp & _ & _ & _ & _ & Bp).
  unfold validate_coordinates_doc. cbn [prop]. rewrite Hx, Hy, Hw, Hh, Hp.
  cbn [number_path required mbind result_bind].
  apply Qle_bool_iff in Bp. rewrite Bp. eauto.
Qed.

Lemma validate_field_storable (f : value) :
  storable f = true -> exists af, validate_field E (redact f) = Ok af.
Proof.
  unfold storable. intros Hs.
  apply andb_true_iff in Hs as [Hs Hval]. apply andb_true_iff in Hs as [Hp Ht].
  apply placeable_inv in Hp as (ps & c & -> & Hv & _).
  cbn [prop] in *.
  destruct (assoc "type" ps) as [| | | |s| |] eqn:Htype; try discriminate.
  destruct (validate_coordinates_doc_valid _ Hv) as [cd Hcd].
  assert (Hty : string_path E (VStr s) ≫= required_string "type" = Ok s).
  { unfold string_path, required_string, required, mbind, result_bind.
    now rewrite (in_enum_nonempty _ Ht). }
  unfold validate_field, redact. cbn [prop fi_type fi_coordinates fi_value].
  rewrite Htype, Hty. unfold mbind at 1. unfold result_bind at 1.
  rewrite Ht. cbn [negb]. rewrite Hcd. unfold mbind, result_bind.
  cbn [is_text] in *.
  destruct (String.eqb s "text"); [|eauto].
  cbn [negb orb] in Hval.
  destruct (assoc "value" ps); try discriminate; cbn [string_path]; eauto.
Qed.

Lemma validate_fields_storable (items : list value) :
  forallb storable items = true ->
  exists afs, validate_fields E (map redact items) = Ok afs.
Proof.
  induction items as [|f items IH]; [now exists []|].
  cbn [forallb map validate_fields]. intros Hs.
  apply andb_true_iff in Hs as [Hf Hs].
  destruct (validate_field_storable f Hf) as [af ->].
  destruct (IH Hs) as [afs ->]. cbn [mbind result_bind]. eauto.
Qed.

(** The save of what the route hands over completes when the fields are
    storable, the identifier is a non-empty string and the hashes are not
    empty. *)
Lemma Audit_save_storable (id oh sh : string) (items : list value) (t : Z)
    (ip ua : option string) (w : world) :
  id <> ""%string -> oh <> ""%string -> sh <> ""%string ->
  forallb storable items = true ->
  exists r, Audit_save E (AuditInit (VStr id) oh sh (map redact items) t ip ua None) w
            = (Ok r, World (files w) (audits w ++ [r]) (clock w) (reads w)).
Proof.
  intros Hid Hoh Hsh Hs. apply String.eqb_neq in Hid, Hoh, Hsh.
  destruct (validate_fields_storable items Hs) as [afs Hafs].
  unfold Audit_save, validate, string_path, required_string, required.
  cbn [i_pdfId i_originalHash i_signedHash i_fields mbind result_bind].
  rewrite Hid, Hoh, Hsh, Hafs. eauto.
Qed.


Lemma storable_placeable (items : list value) :
  forallb storable items = true -> forallb placeable items = true.
Proof.
  rewrite !forallb_forall. intros Hs f Hin. apply Hs in Hin.
  unfold storable in Hin. now repeat (apply andb_true_iff in Hin as [Hin _]).
Qed.



Lemma after_writes_files (w : world) (signedPdfBytes : bytes) :
  files (after_writes w signedPdfBytes) !! path_join SIGNED_DIR (signed_name w)
    = Some signedPdfBytes /\
  files (after_writes w signedPdfBytes) !! path_join PUBLIC_DIR (signed_name w)
    = Some signedPdfBytes.
Proof.
  unfold after_writes. cbn [files]. split.
  - rewrite lookup_insert. destruct (decide _); [reflexivity|].
    apply lookup_insert_eq.
  - apply lookup_insert_eq.
Qed.
End SaveOutcome.

(* ===================================================================== *)
(** ** The route: rejected, failed and successful requests *)

Section RouteOutcomes.
Variable E : externals.
Context {G : Engine}.
Local Open Scope Q_scope.

Lemma signPdf_returned (req : request) (w w' : world) (resp : response) :
  sign_checked E req w = (Ok resp, w') -> signPdf E req w = (Ok resp, w').
Proof. unfold signPdf, try_catch. now intros ->. Qed.

Lemma signPdf_caught (req : request) (w w' : world) (e : exn) :
  sign_checked E req w = (Throw e, w') ->
  signPdf E req w = (Ok (Response 500 (ErrorDetails "Failed to sign PDF" e)), w').
Proof. unfold signPdf, try_catch. now intros ->. Qed.

Lemma filter_invalid_nonempty (items : list value) :
  existsb invalid items = true -> (0 < length (List.filter invalid items))%nat.
Proof.
  induction items as [|f items IH]; [discriminate|].
  cbn [existsb List.filter]. destruct (invalid f); cbn [orb length]; [lia | exact IH].
Qed.

(** The checks of lines 65-77 on a request whose [fields], if a list, has
    no [null] entry: a [pdfId] that is missing (or otherwise falsy), a
    [fields] that is not a list, or a field that fails coordinate
    validation, is answered with status 400; for invalid coordinates the
    message states the number of invalid fields and no field is accepted.
    The world after the request is the world before it. *)
Lemma bad_request_rejected_without_effects (req : request) (w : world)
    (ps : list (string * value)) :
  req_body req = VObj ps ->
  truthy (assoc "pdfId" ps) = false \/
  isArray (assoc "fields" ps) = false \/
  (exists items, assoc "fields" ps = VArr items /\
                 forallb (λ f, negb (nullish f)) items = true /\
                 existsb invalid items = true) ->
  exists msg,
    signPdf E req w = (Ok (Response 400 (ErrorBody msg)), w) /\
    (truthy (assoc "pdfId" ps) = true ->
     forall items, assoc "fields" ps = VArr items ->
       (0 < length (List.filter invalid items))%nat /\
       msg = "Invalid coordinates for "
             +:+ pretty (length (List.filter invalid items)) +:+ " field(s)").
Proof.
  intros Hb Hbad.
  destruct (truthy (assoc "pdfId" ps)) eqn:Hid.
  2:{ eexists. split; [|discriminate].
      apply signPdf_returned, (sign_checked_missing E req w ps Hb). now left. }
  destruct Hbad as [Hbad | [Hbad | (items & Hf & Hr & Hex)]]; [discriminate| |].
  - eexists. split.
    + apply signPdf_returned, (sign_checked_missing E req w ps Hb). now right.
    + intros _ items Hitems. rewrite Hitems in Hbad. discriminate.
  - apply filter_invalid_nonempty in Hex.
    eexists. split.
    + apply signPdf_returned.
      rewrite (sign_checked_validated E req w ps items Hb Hid Hf Hr).
      apply Nat.ltb_lt in Hex. rewrite Hex. reflexivity.
    + intros _ items' Hitems. rewrite Hf in Hitems. injection Hitems as <-. now split.
Qed.

(** The filter of line 72 throws when it reaches an entry that is [null]. *)
Lemma invalid_fields_null_entry (items : list value) :
  existsb nullish items = true -> exists e, invalid_fields items = Throw e.
Proof.
  induction items as [|f items IH]; [discriminate|].
  cbn [existsb invalid_fields]. destruct (nullish f) eqn:Hf; cbn [orb].
  - intros _. destruct f; try discriminate; eexists; reflexivity.
  - intros Hex. destruct (IH Hex) as [e He].
    rewrite (get_prop_readable _ _ Hf), He. cbn [mbind result_bind]. eauto.
Qed.

(** C2, where the code departs from it.  A request with a [pdfId] and a
    list of fields one of whose entries is [null] is answered with status
    500, whatever the other entries are, and so also when one of them fails
    coordinate validation: the callback of the filter at line 72 reads
    [f.pdfCoordinates] of [null], which throws, and the route's [catch]
    answers.  The world is left as it was. *)
Theorem null_entry_is_answered_500 (req : request) (w : world)
    (ps : list (string * value)) (items : list value) :
  req_body req = VObj ps ->
  truthy (assoc "pdfId" ps) = true ->
  assoc "fields" ps = VArr items ->
  existsb nullish items = true ->
  exists e,
    signPdf E req w = (Ok (Response 500 (ErrorDetails "Failed to sign PDF" e)), w).
Proof.
  intros Hb Hid Hf Hnull.
  destruct (invalid_fields_null_entry items Hnull) as [e He].
  exists e. apply signPdf_caught.
  unfold sign_checked. rewrite Hb. cbn [get_prop prop]. run_route.
  rewrite Hid, Hf. cbn [negb isArray orb array_items]. now rewrite He.
Qed.




End RouteOutcomes.

(* ===================================================================== *)
(** ** What a successful request stores *)

Section StoredFields.
Variable E : externals.
Context {G : Engine}.

Lemma audit_field_inv (f : value) (fi : fieldInit) :
  audit_field f = Ok fi -> fi = redact f.
Proof.
  unfold audit_field, redact, get_prop.
  destruct f; try discriminate; cbn [mbind result_bind prop];
    try (intros [= <-]; reflexivity).
  destruct (is_text _); intros [= <-]; reflexivity.
Qed.

(** The route hands the value over for a text field only. *)
Lemma redact_omits_value (f : value) :
  is_text (prop f "type") = false -> fi_value (redact f) = VUndefined.
Proof. unfold redact. cbn [fi_value]. now intros ->. Qed.

Lemma validate_field_stored_as (f : value) (af : auditField) :
  validate_field E (redact f) = Ok af -> stored_as f af.
Proof.
  intros Hv. apply validate_field_inv in Hv as (_ & _ & Hundef & Htype & Hval).
  unfold redact in *. cbn [fi_type fi_value] in *.
  split; [exact Htype|]. split.
  - intros Ht. rewrite Ht in *. split; assumption.
  - intros Ht. rewrite Ht in *. now apply Hundef.
Qed.

Lemma stored_fields_redacted (items : list value) :
  forall (afs : list fieldInit) (stored : list auditField),
  audit_fields items = Ok afs ->
  validate_fields E afs = Ok stored ->
  Forall2 stored_as items stored.
Proof.
  induction items as [|f items IH]; intros afs stored Ha Hv.
  - injection Ha as <-. injection Hv as <-. constructor.
  - cbn [audit_fields] in Ha.
    apply bind_ok in Ha as (fi & Hfi & Ha).
    apply bind_ok in Ha as (rest & Hrest & Ha). injection Ha as <-.
    cbn [validate_fields] in Hv.
    apply bind_ok in Hv as (af & Haf & Hv).
    apply bind_ok in Hv as (srest & Hsrest & Hv). injection Hv as <-.
    apply audit_field_inv in Hfi. subst fi.
    constructor; [now apply validate_field_stored_as | now apply (IH rest)].
Qed.

(** A response with status 200 comes from line 192 only: the checks
    passed and the save of the audit record completed. *)
Lemma sign_document_200_inv (req : request) (pdfId signatureImage : value)
    (items : list value) (w w' : world) (resp : response) :
  sign_document E req pdfId signatureImage items w = (Ok resp, w') ->
  status resp = 200%nat ->
  exists afs oh sh t w1 r,
    audit_fields items = Ok afs /\ audits w1 = audits w /\
    Audit_save E (AuditInit pdfId oh sh afs t (req_ip req) (req_userAgent req) None) w1
    = (Ok r, w').
Proof.
  unfold sign_document, pathExists, readFile, writeFile, copy, Date_now, PDFDocument_load.
  run_route.
  destruct (files w !! path_join PUBLIC_DIR "sample.pdf") as [b|] eqn:Hfile.
  2:{ rewrite bool_decide_eq_false_2 by (intros [? ?]; discriminate).
      cbn [negb]. intros [= <- <-]. discriminate. }
  rewrite bool_decide_eq_true_2 by eauto. cbn [negb]. rewrite Hfile. cbv beta iota.
  destruct (pdf_load E b) as [n|]; cbv beta iota; [|discriminate].
  cbn [files audits clock reads].
  destruct (renderFields E signatureImage _ _ items) as [drawn|]; cbv beta iota; [|discriminate].
  unfold readFile, writeFile. cbn [files audits clock reads].
  rewrite lookup_insert_eq. cbv beta iota. cbn [files audits clock reads].
  destruct (audit_fields items) as [afs|]; cbv beta iota; [|discriminate].
  match goal with
  | |- context [Audit_save E ?d ?w1] =>
      destruct (Audit_save E d w1) as [[r|e] w2] eqn:Hsave; [|discriminate];
      intros [= <- <-] _; exists afs; do 3 eexists; exists w1, r
  end.
  split; [reflexivity|]. split; [reflexivity | exact Hsave].
Qed.

Lemma sign_checked_200_inv (req : request) (w w' : world) (resp : response) :
  sign_checked E req w = (Ok resp, w') ->
  status resp = 200%nat ->
  exists items,
    prop (req_body req) "fields" = VArr items /\
    sign_document E req (prop (req_body req) "pdfId")
      (prop (req_body req) "signatureImage") items w = (Ok resp, w').
Proof.
  unfold sign_checked. run_route. unfold get_prop.
  destruct (nullish (req_body req)) eqn:Hnull.
  { destruct (req_body req); discriminate. }
  assert (Hget : forall k, match req_body req with
                           | VUndefined | VNull =>
                               Throw (TypeError "Cannot read properties of undefined or null")
                           | _ => Ok (prop (req_body req) k)
                           end = Ok (prop (req_body req) k)).
  { intros k. destruct (req_body req); try discriminate; reflexivity. }
  rewrite !Hget. cbv beta iota.
  destruct (truthy (prop (req_body req) "pdfId")); cbn [negb orb].
  2:{ intros [= <- <-]. discriminate. }
  destruct (prop (req_body req) "fields") as [| | | | |items|] eqn:Hf; cbn [isArray negb];
    try (intros [= <- <-]; discriminate).
  cbn [array_items].
  destruct (invalid_fields items) as [bad|]; cbv beta iota; [|discriminate].
  destruct (0 <? length bad)%nat.
  { intros [= <- <-]. discriminate. }
  intros Hs _. exists items. split; [reflexivity | exact Hs].
Qed.

(** C7, as the code has it.  After a successful request the stored audit
    record lists the request's fields in order; a text field keeps the value
    that was sent; for every other field the route hands no value over and
    what is stored is the schema's default, the empty string, so nothing of
    a non-text payload reaches the ledger. *)
Theorem audit_keeps_text_values_only (req : request) (w w' : world) (resp : response) :
  signPdf E req w = (Ok resp, w') ->
  status resp = 200%nat ->
  exists items r,
    prop (req_body req) "fields" = VArr items /\
    audits w' = audits w ++ [r] /\
    Forall2 stored_as items (a_fields r).
Proof.
  intros Hs H200. unfold signPdf, try_catch in Hs.
  destruct (sign_checked E req w) as [[resp0|e] w0] eqn:Hc.
  2:{ injection Hs as <- <-. discriminate. }
  injection Hs as -> ->.
  apply sign_checked_200_inv in Hc as (items & Hf & Hd); [|exact H200].
  apply sign_document_200_inv in Hd
    as (afs & oh & sh & t & w1 & r & Ha & Hw1 & Hsave); [|exact H200].
  apply Audit_save_inv in Hsave as (this & Hv & -> & ->).
  exists items, (pre_save this). split; [exact Hf|]. split.
  - cbn [audits]. now rewrite Hw1.
  - rewrite pre_save_fields. apply validate_inv in Hv. cbn [i_fields] in Hv.
    now apply (stored_fields_redacted items afs).
Qed.
End StoredFields.

(* ===================================================================== *)
(** ** A page number that is not an integer *)

Section FractionalPage.
Context {G : Engine}.

(** C10.  There is a coordinate object, with page 1.5 and the other bounds
    respected, that [validateCoordinates] accepts although its page is not
    an integer; on any document with two pages or more the page lookup then
    yields no page, and a text field placed there makes the rendering throw
    instead of returning, so that the request is answered with status 500. *)
Theorem fractional_page_accepted_but_not_rendered :
  exists coordinates c,
    validateCoordinates coordinates = true /\
    numeric_coords coordinates = Some c /\
    is_integer (c_page c) = false /\
    (forall pages : doc,
       (2 <= length pages)%nat ->
       page_at pages (pageIndex (c_page c) pages) = None /\
       forall E signatureImage now s, s <> ""%string ->
         exists e,
           renderField E signatureImage now pages
             (VObj (Demo.field "text" coordinates (VStr s))) = Throw e) /\
    exists e,
      fst (signPdf Demo.env
             (Demo.request_of [VObj (Demo.field "text" coordinates (VStr "Alice"))])
             Demo.world0)
      = Ok (Response 500 (ErrorDetails "Failed to sign PDF" e)).
Proof.
  exists (Demo.box 100 1.5), (Coordinates 10 10 100 20 1.5).
  split; [reflexivity|]. split; [reflexivity|]. split; [reflexivity|]. split.
  - intros pages Hlen.
    assert (Hnone : page_at pages (pageIndex 1.5 pages) = None).
    { apply page_at_fraction; [reflexivity|].
      unfold num_of_nat. apply Qlt_le_trans with (y := inject_Z 2); [reflexivity|].
      rewrite <- Zle_Qle. lia. }
    split; [exact Hnone|].
    intros E signatureImage now s Hs.
    rewrite (renderField_kind E _ _ _ _ (Coordinates 10 10 100 20 1.5) KText);
      try reflexivity.
    change (assoc "value" (Demo.field "text" (Demo.box 100 1.5) (VStr s))) with (VStr s).
    cbn [c_page]. rewrite Hnone. cbn [renderKind truthy].
    apply String.eqb_neq in Hs. rewrite Hs. cbn [negb]. eexists. reflexivity.
  - eexists. vm_compute. reflexivity.
Qed.
End FractionalPage.

(* ===================================================================== *)
(** ** The properties at concrete requests *)

Section Examples.
Local Open Scope Q_scope.
#[local] Existing Instance Demo.engine.

Lemma bad_request_rejected_example :
  exists msg,
    signPdf Demo.env
      (Demo.request_of [VObj Demo.narrow_field; VObj Demo.text_field]) Demo.world0
    = (Ok (Response 400 (ErrorBody msg)), Demo.world0) /\
    msg = "Invalid coordinates for 1 field(s)"%string.
Proof.
  destruct (bad_request_rejected_without_effects Demo.env
              (Demo.request_of [VObj Demo.narrow_field; VObj Demo.text_field])
              Demo.world0 _ eq_refl) as (msg & Hs & Hmsg).
  { right. right. eexists. split; [reflexivity|]. split; vm_compute; reflexivity. }
  exists msg. split; [exact Hs|].
  destruct (Hmsg eq_refl _ eq_refl) as [_ ->]. vm_compute. reflexivity.
Qed.

(** The request of C2's failing input: a field with a negative width, then
    [null]. *)
Lemma null_entry_witness :
  existsb invalid [VObj Demo.narrow_field; VNull] = true /\
  exists e,
    signPdf Demo.env (Demo.request_of [VObj Demo.narrow_field; VNull]) Demo.world0
    = (Ok (Response 500 (ErrorDetails "Failed to sign PDF" e)), Demo.world0).
Proof.
  split; [reflexivity|].
  exact (null_entry_is_answered_500 Demo.env
           (Demo.request_of [VObj Demo.narrow_field; VNull]) Demo.world0
           (Demo.body_of [VObj Demo.narrow_field; VNull])
           [VObj Demo.narrow_field; VNull] eq_refl eq_refl eq_refl eq_refl).
Defined.

Lemma metadata_derived_witness :
  exists r w',
    Audit_save Demo.env Demo.init Demo.world0 = (Ok r, w') /\
    totalFields (a_metadata r) = 2%nat /\
    hasSignature (a_metadata r) = true /\
    pageCount (a_metadata r) == 3.
Proof.
  destruct (Audit_save Demo.env Demo.init Demo.world0) as [[r|e] w'] eqn:Hs;
    [|vm_compute in Hs; discriminate Hs].
  exists r, w'. split; [reflexivity|].
  destruct (metadata_derived_on_save Demo.env Demo.init Demo.world0 w' r Hs)
    as (Htotal & Hsig & (Hupper & Hmax & _) & _).
  vm_compute in Hs. injection Hs as <- <-.
  split; [exact Htotal|]. split; reflexivity.
Defined.





Lemma audit_keeps_text_values_witness :
  exists items r,
    prop (req_body (Demo.request_of [VObj Demo.signature_field; VObj Demo.text_field]))
      "fields" = VArr items /\
    audits (snd (signPdf Demo.env
                   (Demo.request_of [VObj Demo.signature_field; VObj Demo.text_field])
                   Demo.world0))
    = audits Demo.world0 ++ [r] /\
    Forall2 stored_as items (a_fields r).
Proof.
  apply (audit_keeps_text_values_only Demo.env
           (Demo.request_of [VObj Demo.signature_field; VObj Demo.text_field])
           Demo.world0 _
           (Response 200
              (SuccessBody "PDF signed successfully" "/pdfs/signed_1700000000000.pdf"
                 "sha256:4" "sha256:5" 0 "/api/download/signed_1700000000000.pdf"))).
  - vm_compute. reflexivity.
  - reflexivity.
Defined.

Lemma text_field_rendering_witness :
  renderField Demo.env VUndefined 0 [[]; []] (VObj Demo.text_field)
  = Ok [[];
        [DrawRectangle 10 10 100 20 (rgb 0 0 0) 0.5 (rgb 1 1 1);
         DrawText (VStr "Alice") 15 14 12 (rgb 0 0 0)]] /\
  exists e,
    renderField Demo.env VUndefined 0 [[]; []] (VObj Demo.control_field) = Throw e.
Proof.
  destruct (text_field_rendering Demo.env VUndefined 0 [[]; []] Demo.text_field
              (Coordinates 10 10 100 20 7) 1%nat eq_refl eq_refl eq_refl)
    as (Hdraw & _).
  destruct (text_field_rendering Demo.env VUndefined 0 [[]; []] Demo.control_field
              (Coordinates 10 10 100 20 1) 0%nat eq_refl eq_refl eq_refl)
    as (Hrefuse & _).
  split.
  - assert (Hne : "Alice"%string <> ""%string) by discriminate.
    pose proof (Hdraw "Alice"%string eq_refl Hne) as Hr.
    cbv beta iota in Hr. rewrite Hr. vm_compute. reflexivity.
  - assert (Hne : String "001"%char EmptyString <> ""%string) by discriminate.
    exact (Hrefuse _ eq_refl Hne).
Defined.

(** C8 as stated does not hold.  A text field whose value is the control
    character U+0001, which the font of this environment (as the standard
    font) cannot encode, is not rendered: the iteration throws.  And a text
    field with the value "Alice" on page 1.5 of a two-page document is not
    rendered either: the lookup yields no page. *)
Lemma unencodable_text_is_not_rendered :
  ~ (forall (E : externals) (G : Engine) (signatureImage : value) (now : Z) (pages : doc)
            (ps : list (string * value)) (c : coordinates) (i : nat) (s : string),
       assoc "type" ps = VStr "text" ->
       numeric_coords (assoc "pdfCoordinates" ps) = Some c ->
       page_at pages (pageIndex (c_page c) pages) = Some i ->
       assoc "value" ps = VStr s -> s <> ""%string ->
       exists x y,
         renderField E signatureImage now pages (VObj ps) =
         Ok (add_ops i
               [DrawRectangle (c_x c) (c_y c) (c_width c) (c_height c)
                  (rgb 0 0 0) 0.5 (rgb 1 1 1);
                DrawText (VStr s) x y 12 (rgb 0 0 0)]
               pages)) /\
  ~ (forall (E : externals) (G : Engine) (signatureImage : value) (now : Z) (pages : doc)
            (ps : list (string * value)) (s : string),
       assoc "type" ps = VStr "text" ->
       validateCoordinates (assoc "pdfCoordinates" ps) = true ->
       (1 <= length pages)%nat ->
       assoc "value" ps = VStr s -> s <> ""%string ->
       encodable (font_encodes E) s = true ->
       exists pages', renderField E signatureImage now pages (VObj ps) = Ok pages').
Proof.
  split.
  - intros Hclaim.
    destruct (Hclaim Demo.env Demo.engine VUndefined 0%Z [[]; []] Demo.control_field
                (Coordinates 10 10 100 20 1) 0%nat (String "001"%char EmptyString)
                eq_refl eq_refl eq_refl eq_refl) as (x & y & Hr).
    + discriminate.
    + vm_compute in Hr. discriminate Hr.
  - intros Hclaim.
    destruct (Hclaim Demo.env Demo.engine VUndefined 0%Z [[]; []] Demo.fraction_field
                "Alice"%string eq_refl eq_refl) as [pages' Hr].
    + cbn. lia.
    + reflexivity.
    + discriminate.
    + reflexivity.
    + vm_compute in Hr. discriminate Hr.
Qed.



(** C7 as stated does not hold of the stored record: the signature field of
    this successful request is stored with the value [""], not without one. *)
Lemma signature_value_stored_as_empty_string :
  ~ (forall (E : externals) (req : request) (w w' : world) (resp : response)
            (r : auditRecord) (af : auditField),
       signPdf E req w = (Ok resp, w') -> status resp = 200%nat ->
       last (audits w') = Some r -> In af (a_fields r) ->
       af_type af <> "text"%string -> af_value af = None).
Proof.
  intros Hclaim.
  specialize (Hclaim Demo.env (Demo.request_of [VObj Demo.signature_field]) Demo.world0).
  destruct (signPdf Demo.env (Demo.request_of [VObj Demo.signature_field]) Demo.world0)
    as [[resp|e] w'] eqn:Hs; vm_compute in Hs; [|discriminate Hs].
  injection Hs as <- <-.
  specialize (Hclaim _ _ _ (AuditField "signature" (Coordinates 10 10 100 20 1) (Some ""%string))
                eq_refl eq_refl eq_refl).
  cbn in Hclaim. discriminate Hclaim; [now left | discriminate].
Qed.
End Examples.

(* ===================================================================== *)
(** ** Every way a sign request ends *)

Section SignOutcomes.
Variable E : externals.
Context {G : Engine}.

Lemma invalid_fields_inv (items bad : list value) :
  invalid_fields items = Ok bad -> bad = List.filter invalid items.
Proof.
  revert bad. induction items as [|f items IH]; intros bad Hi.
  - now injection Hi as <-.
  - cbn [invalid_fields] in Hi.
    apply bind_ok in Hi as (c & Hc & Hi).
    apply bind_ok in Hi as (rest & Hrest & Hi).
    injection Hi as <-. rewrite (IH rest Hrest). cbn [List.filter].
    assert (c = prop f "pdfCoordinates") as ->.
    { destruct f; try discriminate; now injection Hc as <-. }
    change (invalid f) with (negb (validateCoordinates (prop f "pdfCoordinates"))).
    now destruct (validateCoordinates _).
Qed.

Lemma filter_invalid_exists (items : list value) :
  (0 < length (List.filter invalid items))%nat -> existsb invalid items = true.
Proof.
  induction items as [|f items IH]; cbn [List.filter existsb length]; [lia|].
  destruct (invalid f); [reflexivity|]. exact IH.
Qed.

Lemma Audit_save_throw (d : auditInit) (w w' : world) (e : exn) :
  Audit_save E d w = (Throw e, w') -> w' = w.
Proof.
  unfold Audit_save. destruct (validate E _ d); [discriminate|]. now intros [= _ <-].
Qed.

(** The part of the route after the checks. *)
Lemma sign_document_outcome (req : request) (items : list value) (w : world) :
  prop (req_body req) "fields" = VArr items ->
  List.filter invalid items = [] ->
  (exists resp w',
     sign_document E req (prop (req_body req) "pdfId")
       (prop (req_body req) "signatureImage") items w = (Ok resp, w') /\
     sign_outcome E req w resp w') \/
  (exists e w',
     sign_document E req (prop (req_body req) "pdfId")
       (prop (req_body req) "signatureImage") items w = (Throw e, w') /\
     sign_outcome E req w (Response 500 (ErrorDetails "Failed to sign PDF" e)) w').
Proof.
  intros Hf Hvalid.
  unfold sign_document, pathExists, readFile, writeFile, copy, Date_now, PDFDocument_load.
  run_route.
  destruct (files w !! path_join PUBLIC_DIR "sample.pdf") as [b|] eqn:Hfile.
  2:{ rewrite bool_decide_eq_false_2 by (intros [? ?]; discriminate).
      cbn [negb]. left. eexists _, _. split; [reflexivity|]. now constructor. }
  rewrite bool_decide_eq_true_2 by eauto. cbn [negb]. rewrite Hfile. cbv beta iota.
  fold (after_read w).
  destruct (pdf_load E b) as [n|] eqn:Hload; cbv beta iota.
  2:{ right. eexists _, _. split; [reflexivity|]. now apply failed_after_read with (b := b). }
  cbn [files audits clock reads after_read].
  destruct (renderFields E _ _ _ items) as [drawn|e] eqn:Hdraw; cbv beta iota.
  2:{ right. eexists _, _. split; [reflexivity|]. now apply failed_after_read with (b := b). }
  unfold readFile, writeFile. cbn [files audits clock reads].
  rewrite lookup_insert_eq. cbv beta iota. cbn [files audits clock reads].
  fold (signed_name w). fold (after_writes w (pdf_save E b drawn)).
  destruct (audit_fields items) as [afs|e] eqn:Hafs; cbv beta iota.
  2:{ right. eexists _, _. split; [reflexivity|].
      now apply failed_after_writes with (b := b). }
  destruct (Audit_save E _ (after_writes w (pdf_save E b drawn))) as [[audit|e] w'] eqn:Hsave.
  - left. eexists _, _. split; [reflexivity|].
    now apply (signed E req w b n items drawn afs audit w').
  - right. apply Audit_save_throw in Hsave as Hw. subst w'.
    eexists _, _. split; [reflexivity|].
    now apply failed_after_writes with (b := b).
Qed.

(** The route always answers, in one of the ways of [sign_outcome]. *)
Lemma signPdf_outcome (req : request) (w : world) :
  exists resp w', signPdf E req w = (Ok resp, w') /\ sign_outcome E req w resp w'.
Proof.
  unfold signPdf, try_catch.
  assert (Hcases :
    (exists resp w', sign_checked E req w = (Ok resp, w') /\ sign_outcome E req w resp w') \/
    (exists e w', sign_checked E req w = (Throw e, w') /\
       sign_outcome E req w (Response 500 (ErrorDetails "Failed to sign PDF" e)) w')).
  { unfold sign_checked. run_route. unfold get_prop.
    destruct (nullish (req_body req)) eqn:Hnull.
    { right. destruct (req_body req); try discriminate;
        (eexists _, _; split; [reflexivity | constructor]). }
    assert (Hget : forall k, match req_body req with
                             | VUndefined | VNull =>
                                 Throw (TypeError "Cannot read properties of undefined or null")
                             | _ => Ok (prop (req_body req) k)
                             end = Ok (prop (req_body req) k)).
    { intros k. destruct (req_body req); try discriminate; reflexivity. }
    rewrite !Hget. cbv beta iota.
    destruct (truthy (prop (req_body req) "pdfId")) eqn:Hid; cbn [negb orb].
    2:{ left. eexists _, _. split; [reflexivity|]. constructor. now left. }
    destruct (isArray (prop (req_body req) "fields")) eqn:Harr; cbn [negb].
    2:{ left. eexists _, _. split; [reflexivity|]. constructor. right. now left. }
    destruct (prop (req_body req) "fields") as [| | | | |items|] eqn:Hf; try discriminate.
    cbn [array_items].
    destruct (invalid_fields items) as [bad|e] eqn:Hbad; cbv beta iota.
    2:{ right. eexists _, _. split; [reflexivity | constructor]. }
    apply invalid_fields_inv in Hbad. subst bad.
    destruct (0 <? length (List.filter invalid items))%nat eqn:Hcount.
    { left. eexists _, _. split; [reflexivity|]. constructor. right. right.
      exists items. split; [exact Hf|].
      apply filter_invalid_exists. now apply Nat.ltb_lt. }
    apply Nat.ltb_ge in Hcount.
    assert (Hnone : List.filter invalid items = []).
    { destruct (List.filter invalid items); [reflexivity | cbn in Hcount; lia]. }
    apply sign_document_outcome; [exact Hf | exact Hnone]. }
  destruct Hcases as [(resp & w' & -> & Ho) | (e & w' & -> & Ho)]; eauto.
Qed.
End SignOutcomes.

Section SignConsequences.
Variable E : externals.
Context {G : Engine}.

Lemma signPdf_outcome_of (req : request) (w w' : world) (resp : response) :
  signPdf E req w = (Ok resp, w') -> sign_outcome E req w resp w'.
Proof.
  intros Hs. destruct (signPdf_outcome E req w) as (resp0 & w0 & Hs0 & Ho).
  rewrite Hs in Hs0. now injection Hs0 as <- <-.
Qed.

Lemma signed_paths_fresh (w : world) :
  path_join SIGNED_DIR (signed_name w) <> path_join PUBLIC_DIR "sample.pdf" /\
  path_join PUBLIC_DIR (signed_name w) <> path_join PUBLIC_DIR "sample.pdf".
Proof.
  unfold path_join, SIGNED_DIR, PUBLIC_DIR, signed_name. split; cbn; intros Heq;
    repeat (injection Heq as _ Heq); discriminate.
Qed.

Lemma validate_record (id : nat) (d : auditInit) (this : auditRecord) :
  validate E id d = Ok this ->
  a_id this = id /\ a_originalHash this = i_originalHash d /\
  a_signedHash this = i_signedHash d /\ a_timestamp this = i_timestamp d /\
  a_ipAddress this = i_ipAddress d /\ a_userAgent this = i_userAgent d /\
  a_pdfId this <> ""%string /\ a_originalHash this <> ""%string /\
  a_signedHash this <> ""%string /\
  (forall s, i_pdfId d = VStr s -> a_pdfId this = s).
Proof.
  unfold validate. intros Hv.
  apply bind_ok in Hv as (pdfId & Hid & Hv).
  apply bind_ok in Hv as (oh & Hoh & Hv).
  apply bind_ok in Hv as (sh & Hsh & Hv).
  apply bind_ok in Hv as (fields & _ & Hv).
  injection Hv as <-. cbn.
  assert (Hreq : forall name o s, required_string name o = Ok s ->
                                  o = Some s /\ s <> ""%string).
  { intros name o s. unfold required_string, required. destruct o as [s0|]; [|discriminate].
    cbn [mbind result_bind]. destruct (String.eqb s0 "") eqn:Hne; [discriminate|].
    intros [= <-]. split; [reflexivity|]. now apply String.eqb_neq. }
  apply Hreq in Hoh as [[= <-] Hoh]. apply Hreq in Hsh as [[= <-] Hsh].
  apply bind_ok in Hid as (o & Hpath & Hid). apply Hreq in Hid as [-> Hid].
  repeat split; trivial.
  intros s Hs. rewrite Hs in Hpath. now injection Hpath as <-.
Qed.
End SignConsequences.

Section RouteProperties.
Variable E : externals.
Context {G : Engine}.

(** The generated identifier is above every identifier in use. *)
Lemma fresh_id_above (collection : list auditRecord) :
  Forall (λ r, (a_id r < fresh_id collection)%nat) collection.
Proof.
  induction collection as [|r collection IH]; [constructor|].
  cbn [fresh_id fold_right]. fold (fresh_id collection). constructor; [lia|].
  eapply Forall_impl; [exact IH|]. cbn. intros r' Hr'. lia.
Qed.

(** X1.  The route answers 400 only to a request whose [pdfId] is falsy,
    whose [fields] is not an array, or one of whose fields has invalid
    coordinates; and whenever it answers 400 the world is left as it was. *)
Theorem client_error_only_for_bad_requests (req : request) (w w' : world)
    (resp : response) :
  signPdf E req w = (Ok resp, w') ->
  status resp = 400%nat ->
  w' = w /\ bad_request (req_body req).
Proof.
  intros Hs H400. apply signPdf_outcome_of in Hs.
  destruct Hs; cbn in H400; try discriminate. now split.
Qed.

(** X2.  The route answers with status 200, 400, 404 or 500 and never
    throws; the audit collection gains exactly one record, under an
    identifier that no record of the collection has, when the status is 200
    and is unchanged otherwise; the clock is not touched. *)
Theorem ledger_grows_only_on_success (req : request) (w : world) :
  exists resp w',
    signPdf E req w = (Ok resp, w') /\
    (status resp = 200%nat \/ status resp = 400%nat \/
     status resp = 404%nat \/ status resp = 500%nat) /\
    (status resp <> 200%nat -> audits w' = audits w) /\
    (status resp = 200%nat ->
     exists r, audits w' = audits w ++ [r] /\
               Forall (λ r', a_id r' <> a_id r) (audits w)) /\
    clock w' = clock w.
Proof.
  destruct (signPdf_outcome E req w) as (resp & w' & Hs & Ho).
  exists resp, w'. split; [exact Hs|].
  destruct Ho as [msg Hbad | Hnone | e | e b Hb | e b drawn Hb
                 | b n items drawn afs audit w' Hb Hload Hf Hvalid Hdraw Hafs Hsave];
    cbn [status success_response];
    try (split; [tauto|]; split; [reflexivity|]; split; [discriminate | reflexivity]).
  apply Audit_save_inv in Hsave as (this & Hv & -> & ->).
  apply validate_record in Hv as (Hid & _).
  split; [tauto|]. split; [congruence|]. split; [|reflexivity].
  intros _. exists (pre_save this). split; [reflexivity|].
  change (a_id (pre_save this)) with (a_id this). rewrite Hid.
  cbn [after_writes audits].
  eapply Forall_impl; [apply fresh_id_above|]. cbn. intros r' Hr'. lia.
Qed.

(** X3.  Whatever the request and however it ends, the source document is
    not written to, and no file is created, changed or removed other than
    the signed document and its public copy, both named after the clock. *)
Theorem existing_files_preserved (req : request) (w w' : world) (resp : response) :
  signPdf E req w = (Ok resp, w') ->
  files w' !! path_join PUBLIC_DIR "sample.pdf"
  = files w !! path_join PUBLIC_DIR "sample.pdf" /\
  forall p : string,
    p <> path_join SIGNED_DIR (signed_name w) ->
    p <> path_join PUBLIC_DIR (signed_name w) ->
    files w' !! p = files w !! p.
Proof.
  intros Hs. apply signPdf_outcome_of in Hs.
  assert (Hother : forall p : string,
            p <> path_join SIGNED_DIR (signed_name w) ->
            p <> path_join PUBLIC_DIR (signed_name w) ->
            files w' !! p = files w !! p).
  { destruct Hs as [msg Hbad | Hnone | e | e b Hb | e b drawn Hb
                   | b n items drawn afs audit w' Hb Hload Hf Hvalid Hdraw Hafs Hsave];
      intros p Hp1 Hp2; try reflexivity.
    - cbn [after_writes files]. now rewrite !lookup_insert_ne.
    - apply Audit_save_inv in Hsave as (this & _ & _ & ->).
      cbn [after_writes files]. now rewrite !lookup_insert_ne. }
  split; [|exact Hother].
  destruct (signed_paths_fresh w) as [Hsigned Hpublic].
  apply Hother; congruence.
Qed.

(** X4.  A 200 answer is anchored in what was stored: [originalHash] is the
    digest of the source document as it is on disk, [signedHash] the digest
    of the bytes now stored under the signed name in both directories, the
    two URLs carry that name, and the record appended to the audit
    collection has the same two digests, the identifier returned as
    [auditId], the clock's time and the caller's address and user agent. *)
Theorem success_is_hash_anchored (req : request) (w w' : world) (resp : response) :
  signPdf E req w = (Ok resp, w') ->
  status resp = 200%nat ->
  exists b signedPdfBytes r,
    files w !! path_join PUBLIC_DIR "sample.pdf" = Some b /\
    files w' !! path_join SIGNED_DIR (signed_name w) = Some signedPdfBytes /\
    files w' !! path_join PUBLIC_DIR (signed_name w) = Some signedPdfBytes /\
    json resp =
      SuccessBody "PDF signed successfully" ("/pdfs/" +:+ signed_name w)
        (calculateSHA256 E b) (calculateSHA256 E signedPdfBytes) (a_id r)
        ("/api/download/" +:+ signed_name w) /\
    audits w' = audits w ++ [r] /\
    a_originalHash r = calculateSHA256 E b /\
    a_signedHash r = calculateSHA256 E signedPdfBytes /\
    a_timestamp r = clock w /\
    a_ipAddress r = req_ip req /\ a_userAgent r = req_userAgent req.
Proof.
  intros Hs H200. apply signPdf_outcome_of in Hs.
  destruct Hs as [msg Hbad | Hnone | e | e b Hb | e b drawn Hb
                 | b n items drawn afs audit w' Hb Hload Hf Hvalid Hdraw Hafs Hsave];
    cbn in H200; try discriminate.
  apply Audit_save_inv in Hsave as (this & Hv & -> & ->).
  apply validate_record in Hv as (_ & Hoh & Hsh & Ht & Hip & Hua & _).
  destruct (after_writes_files w (pdf_save E b drawn)) as [Hsigned Hpublic].
  exists b, (pdf_save E b drawn), (pre_save this).
  cbn [files audits]. repeat split; trivial.
Qed.
End RouteProperties.

Section SourceDocument.
Variable E : externals.
Context {G : Engine}.

(** The route after the checks, once it is known what the rendering and the
    redaction give. *)
Lemma sign_document_run (req : request) (pdfId signatureImage : value)
    (items : list value) (w : world) (b : bytes) (n : nat) (drawn : doc)
    (afs : list fieldInit) :
  files w !! path_join PUBLIC_DIR "sample.pdf" = Some b ->
  pdf_load E b = Some n ->
  renderFields E signatureImage (clock w) (replicate n []) items = Ok drawn ->
  audit_fields items = Ok afs ->
  sign_document E req pdfId signatureImage items w =
  match Audit_save E
          (AuditInit pdfId (calculateSHA256 E b) (calculateSHA256 E (pdf_save E b drawn))
             afs (clock w) (req_ip req) (req_userAgent req) None)
          (after_writes w (pdf_save E b drawn)) with
  | (Ok audit, w') =>
      (Ok (success_response w (calculateSHA256 E b)
             (calculateSHA256 E (pdf_save E b drawn)) audit), w')
  | (Throw e, w') => (Throw e, w')
  end.
Proof.
  intros Hfile Hload Hd Hafs.
  unfold sign_document, pathExists, readFile, writeFile, copy, Date_now, PDFDocument_load.
  run_route.
  rewrite Hfile. rewrite bool_decide_eq_true_2 by eauto. cbn [negb].
  rewrite Hfile. cbv beta iota. rewrite Hload. cbv beta iota.
  cbn [files audits clock reads].
  rewrite Hd. cbv beta iota. unfold readFile, writeFile. cbn [files audits clock reads].
  rewrite lookup_insert_eq. cbv beta iota. cbn [files audits clock reads].
  rewrite Hafs. cbv beta iota. reflexivity.
Qed.

(** X5.  A request that passes the checks when the source document is not
    on disk is answered 404 "Sample PDF not found", and the world is left as
    it was: nothing is read, written or recorded. *)
Theorem missing_source_is_not_found (req : request) (w : world)
    (ps : list (string * value)) (items : list value) :
  req_body req = VObj ps ->
  truthy (assoc "pdfId" ps) = true ->
  assoc "fields" ps = VArr items ->
  forallb (λ f, negb (nullish f)) items = true ->
  List.filter invalid items = [] ->
  files w !! path_join PUBLIC_DIR "sample.pdf" = None ->
  signPdf E req w = (Ok (Response 404 (ErrorBody "Sample PDF not found")), w).
Proof.
  intros Hb Hid Hf Hr Hvalid Hfile. apply signPdf_returned.
  rewrite (sign_checked_validated E req w ps items Hb Hid Hf Hr), Hvalid. cbn [length Nat.ltb Nat.leb].
  unfold sign_document, pathExists. run_route. rewrite Hfile.
  rewrite bool_decide_eq_false_2 by (intros [? ?]; discriminate). reflexivity.
Qed.

(** X6.  A request that passes the checks when the source document is on
    disk but cannot be parsed is answered 500; the document has been read,
    and nothing has been written or recorded. *)
Theorem unreadable_source_fails_before_writing (req : request) (w : world)
    (ps : list (string * value)) (items : list value) (b : bytes) :
  req_body req = VObj ps ->
  truthy (assoc "pdfId" ps) = true ->
  assoc "fields" ps = VArr items ->
  forallb (λ f, negb (nullish f)) items = true ->
  List.filter invalid items = [] ->
  files w !! path_join PUBLIC_DIR "sample.pdf" = Some b ->
  pdf_load E b = None ->
  exists e,
    signPdf E req w
    = (Ok (Response 500 (ErrorDetails "Failed to sign PDF" e)), after_read w) /\
    files (after_read w) = files w /\ audits (after_read w) = audits w.
Proof.
  intros Hb Hid Hf Hr Hvalid Hfile Hload. eexists. split; [|split; reflexivity].
  apply signPdf_caught.
  rewrite (sign_checked_validated E req w ps items Hb Hid Hf Hr), Hvalid. cbn [length Nat.ltb Nat.leb].
  unfold sign_document, pathExists, readFile, PDFDocument_load. run_route. rewrite Hfile.
  rewrite bool_decide_eq_true_2 by eauto. cbn [negb]. rewrite Hfile. cbv beta iota.
  rewrite Hload. reflexivity.
Qed.

(** X7.  A request with an empty field list succeeds: the document is
    serialized with no drawing operation on any page, and the audit record
    stored has no fields and the metadata 0 fields, no signature, 1 page. *)
Theorem empty_field_list_signs_untouched_document (req : request) (w : world)
    (ps : list (string * value)) (id : string) (b : bytes) (n : nat) :
  req_body req = VObj ps ->
  assoc "pdfId" ps = VStr id -> id <> ""%string ->
  assoc "fields" ps = VArr [] ->
  files w !! path_join PUBLIC_DIR "sample.pdf" = Some b ->
  pdf_load E b = Some n ->
  (forall x, calculateSHA256 E x <> ""%string) ->
  let signedPdfBytes := pdf_save E b (replicate n []) in
  exists r,
    signPdf E req w
    = (Ok (success_response w (calculateSHA256 E b) (calculateSHA256 E signedPdfBytes) r),
       World (files (after_writes w signedPdfBytes)) (audits w ++ [r]) (clock w)
         (reads (after_writes w signedPdfBytes))) /\
    a_fields r = [] /\ a_metadata r = Metadata 0 false 1.
Proof.
  intros Hb Hid Hne Hf Hfile Hload Hhash signedPdfBytes.
  assert (Htruthy : truthy (assoc "pdfId" ps) = true).
  { rewrite Hid. cbn [truthy]. apply String.eqb_neq in Hne. now rewrite Hne. }
  destruct (Audit_save_storable E id (calculateSHA256 E b)
              (calculateSHA256 E signedPdfBytes) [] (clock w)
              (req_ip req) (req_userAgent req) (after_writes w signedPdfBytes)
              Hne (Hhash _) (Hhash _) eq_refl) as [r Hr].
  exists r. split.
  - apply signPdf_returned.
    rewrite (sign_checked_validated E req w ps [] Hb Htruthy Hf eq_refl). cbn [List.filter length Nat.ltb Nat.leb].
    rewrite (sign_document_run req _ _ [] w b n (replicate n []) [] Hfile Hload eq_refl eq_refl).
    rewrite Hid. cbn [map] in Hr. fold signedPdfBytes. rewrite Hr. reflexivity.
  - apply Audit_save_inv in Hr as (this & Hv & -> & _).
    apply validate_inv in Hv. cbn [i_fields map validate_fields] in Hv.
    injection Hv as Hv. unfold pre_save. cbn [a_fields a_metadata]. rewrite <- Hv.
    split; reflexivity.
Qed.
(** Fields that can be placed, one of which has a text the library refuses:
    the loop throws. *)
Lemma renderFields_refused (signatureImage : value) (now : Z) (items : list value) :
  forallb placeable items = true ->
  existsb (λ f, negb (writable E f)) items = true ->
  forall pages : doc, (1 <= length pages)%nat ->
  exists e, renderFields E signatureImage now pages items = Throw e.
Proof.
  induction items as [|f items IH]; [discriminate|].
  cbn [forallb existsb renderFields]. intros Hp Hex pages Hn.
  apply andb_true_iff in Hp as [Hf Hp].
  apply placeable_inv in Hf as (ps & c & -> & Hv & Hc & Hint & Hp1).
  destruct (writable E (VObj ps)) eqn:Hw; cbn [negb orb] in Hex.
  - destruct (page_selection_total pages c Hp1 Hn Hint) as [i Hi].
    destruct (renderField_on_page E signatureImage now pages ps c i Hc Hi Hw) as [ops ->].
    cbn [mbind result_bind]. apply (IH Hp Hex). now rewrite add_ops_length.
  - unfold writable in Hw. cbn [prop] in Hw.
    apply orb_false_iff in Hw as [Hw Hbad]. apply orb_false_iff in Hw as [Ht Hval].
    apply negb_false_iff in Ht, Hval. apply switch_type_text in Ht.
    rewrite (renderField_kind E _ _ _ _ c KText Hc Ht).
    destruct (renderKind_text_refused E signatureImage (assoc "value" ps) now pages
                (page_at pages (pageIndex (c_page c) pages)) c Hval Hbad) as [e ->].
    eauto.
Qed.

(** X21.  A request that passes the checks and whose fields can all be
    placed, but one of whose text fields has a value that is no string or
    that the font cannot encode, is answered 500 once the source document
    has been read and loaded: the drawing throws before anything is
    written, so no file is created and no audit record stored. *)
Theorem refused_text_fails_before_writing (req : request) (w : world)
    (ps : list (string * value)) (items : list value) (b : bytes) (n : nat) :
  req_body req = VObj ps ->
  truthy (assoc "pdfId" ps) = true ->
  assoc "fields" ps = VArr items ->
  forallb placeable items = true ->
  existsb (λ f, negb (writable E f)) items = true ->
  files w !! path_join PUBLIC_DIR "sample.pdf" = Some b ->
  pdf_load E b = Some n -> (1 <= n)%nat ->
  exists e,
    signPdf E req w
    = (Ok (Response 500 (ErrorDetails "Failed to sign PDF" e)), after_read w) /\
    files (after_read w) = files w /\ audits (after_read w) = audits w.
Proof.
  intros Hb Hid Hf Hp Hex Hfile Hload Hn.
  destruct (renderFields_refused (assoc "signatureImage" ps) (clock w) items Hp Hex
              (replicate n [])) as [e He].
  { now rewrite length_replicate. }
  exists e. split; [|split; reflexivity].
  apply signPdf_caught.
  rewrite (sign_checked_validated E req w ps items Hb Hid Hf (placeable_readable _ Hp)).
  rewrite (placeable_valid _ Hp). cbn [length Nat.ltb Nat.leb].
  unfold sign_document, pathExists, readFile, PDFDocument_load, Date_now. run_route.
  rewrite Hfile. rewrite bool_decide_eq_true_2 by eauto. cbn [negb].
  rewrite Hfile. cbv beta iota. rewrite Hload. cbv beta iota.
  cbn [files audits clock reads]. rewrite He. reflexivity.
Qed.
End SourceDocument.

(* ===================================================================== *)
(** ** More on the renderer *)

Section RendererProperties.
Variable E : externals.
Context {G : Engine}.
Local Open Scope Q_scope.

(** X8.  A radio field on a page that exists draws exactly one circle,
    with a black border of width 1 and a white fill, whose centre
    [(x + width / 2, y + height / 2)] and radius [min(width, height) / 2 - 2]
    are those the engine computes.  The inset of 2 is nominal: in binary64,
    for the box with [x = 0.1] and [width = height = 10.1], the left edge of
    the circle is less than 2 away from the left side of the box. *)
Theorem radio_circle_as_computed (signatureImage : value) (now : Z) (pages : doc)
    (ps : list (string * value)) (c : coordinates) (i : nat) :
  assoc "type" ps = VStr "radio" ->
  numeric_coords (assoc "pdfCoordinates" ps) = Some c ->
  page_at pages (pageIndex (c_page c) pages) = Some i ->
  renderField E signatureImage now pages (VObj ps) =
  Ok (add_ops i
        [DrawCircle (c_x c ⊕ c_width c ⊘ 2) (c_y c ⊕ c_height c ⊘ 2)
           (Math_min (c_width c) (c_height c) ⊘ 2 ⊖ 2) (rgb 0 0 0) 1 (rgb 1 1 1)]
        pages) /\
  (let x := binary64_of 0.1 in
   let side := binary64_of 10.1 in
   let centerX := num_add (G := Binary64Engine) x (num_div (G := Binary64Engine) side 2) in
   let radius :=
     num_sub (G := Binary64Engine) (num_div (G := Binary64Engine) (Math_min side side) 2) 2 in
   centerX - radius - x < 2).
Proof.
  intros Ht Hc Hp.
  assert (Hk : switch_type (assoc "type" ps) = Some KRadio) by now rewrite Ht.
  rewrite (renderField_kind E _ _ _ _ c KRadio Hc Hk), Hp.
  destruct c as [x y w h p]. cbn [renderKind c_x c_y c_width c_height].
  split; [apply draw_on_page|]. vm_compute. reflexivity.
Qed.


Lemma renderKind_adds (signatureImage v : value) (now : Z) (pages pages' : doc)
    (pdfPage : option nat) (c : coordinates) (k : fieldKind) :
  renderKind E signatureImage v now pages pdfPage c k = Ok pages' ->
  exists i ops, pages' = add_ops i ops pages /\ (length ops <= 2)%nat.
Proof.
  assert (Hnil : exists i ops, pages = add_ops i ops pages /\ (length ops <= 2)%nat).
  { exists 0%nat, []. rewrite add_ops_nil. split; [reflexivity | cbn; lia]. }
  assert (Htwo : forall op t x y sz fill,
            (pages1 ← draw pages pdfPage op; drawText E pages1 pdfPage t x y sz fill)
            = Ok pages' ->
            exists i ops, pages' = add_ops i ops pages /\ (length ops <= 2)%nat).
  { intros op t x y sz fill Hr. apply bind_ok in Hr as (pages1 & Hd & Ht).
    apply draw_inv in Hd as (i & -> & ->).
    apply (drawText_inv E) in Ht as (j & [= <-] & ->). rewrite add_ops_app.
    eexists _, _. split; [reflexivity | cbn; lia]. }
  destruct c as [x y w h p]. destruct k; cbn [renderKind].
  - destruct (truthy signatureImage); [|intros [= <-]; exact Hnil].
    destruct (drawSignatureImage E signatureImage pages pdfPage _) as [pages1|e] eqn:Hd.
    + intros [= <-]. apply drawSignatureImage_inv in Hd as (s & img & i & _ & _ & _ & ->).
      eexists _, _. split; [reflexivity | cbn; lia].
    + unfold drawSignaturePlaceholder. apply Htwo.
  - destruct (truthy v); [apply Htwo | intros [= <-]; exact Hnil].
  - apply Htwo.
  - intros Hd. apply draw_inv in Hd as (i & _ & ->).
    eexists _, _. split; [reflexivity | cbn; lia].
  - apply Htwo.
Qed.

Lemma renderField_adds (signatureImage : value) (now : Z) (pages pages' : doc)
    (f : value) :
  renderField E signatureImage now pages f = Ok pages' ->
  exists i ops, pages' = add_ops i ops pages /\ (length ops <= 2)%nat.
Proof.
  assert (Hnil : exists i ops, pages = add_ops i ops pages /\ (length ops <= 2)%nat).
  { exists 0%nat, []. rewrite add_ops_nil. split; [reflexivity | cbn; lia]. }
  unfold renderField. destruct (nullish f) eqn:Hn.
  { destruct f; discriminate. }
  rewrite !(get_prop_readable _ _ Hn). cbn [mbind result_bind].
  destruct (truthy _); cbn [negb]; [|now intros [= <-]].
  destruct (numeric_coords _) as [c|]; [|discriminate].
  destruct (switch_type _) as [k|]; [|now intros [= <-]].
  apply renderKind_adds.
Qed.

Lemma ops_count_add_ops (i : nat) (ops : list drawop) (pages : doc) :
  (ops_count (add_ops i ops pages) <= ops_count pages + length ops)%nat.
Proof.
  assert (Hcons : forall (page : list drawop) (rest : doc),
            ops_count (page :: rest) = (length page + ops_count rest)%nat)
    by reflexivity.
  revert i. induction pages as [|page pages IH]; intros i.
  - unfold add_ops. destruct i; cbn; lia.
  - destruct i as [|i].
    + change (add_ops 0 ops (page :: pages)) with ((page ++ ops) :: pages).
      rewrite !Hcons, length_app. lia.
    + change (add_ops (S i) ops (page :: pages)) with (page :: add_ops i ops pages).
      rewrite !Hcons. specialize (IH i). lia.
Qed.

(** X10.  Rendering never removes pages or what is already drawn on them:
    after all the fields are rendered the document has the same number of
    pages, each page keeps its earlier operations as a prefix, and at most
    two operations were added per field. *)
Theorem rendering_only_appends (signatureImage : value) (now : Z)
    (fields : list value) :
  forall pages pages' : doc,
  renderFields E signatureImage now pages fields = Ok pages' ->
  length pages' = length pages /\
  (forall j drawn, pages !! j = Some drawn ->
     exists added, pages' !! j = Some (drawn ++ added)) /\
  (ops_count pages' <= ops_count pages + 2 * length fields)%nat.
Proof.
  induction fields as [|f fields IH]; intros pages pages' Hr.
  - injection Hr as <-. split; [reflexivity|]. split; [|lia].
    intros j drawn Hj. exists []. now rewrite app_nil_r.
  - cbn [renderFields] in Hr. apply bind_ok in Hr as (pages1 & Hf & Hr).
    apply renderField_adds in Hf as (i & ops & -> & Hlen).
    destruct (IH _ _ Hr) as (Hl & Hkeep & Hcount).
    rewrite add_ops_length in Hl. split; [exact Hl|]. split.
    + intros j drawn Hj. destruct (decide (i = j)) as [<- | Hne].
      * destruct (Hkeep i (drawn ++ ops)) as [added Ha]; [now apply add_ops_same|].
        exists (ops ++ added). now rewrite app_assoc.
      * apply Hkeep. now rewrite add_ops_other.
    + pose proof (ops_count_add_ops i ops pages). cbn [length]. lia.
Qed.
End RendererProperties.

Section SignatureImage.
Variable E : externals.
Context {G : Engine}.
Local Open Scope Q_scope.

Lemma substring_all (s : string) : String.substring 0 (String.length s) s = s.
Proof. induction s as [|ch s IH]; [reflexivity|]. cbn. now rewrite IH. Qed.

Lemma append_cons (a : ascii) (p r : string) :
  String a p +:+ r = String a (p +:+ r).
Proof. reflexivity. Qed.

Lemma prefix_nil (s : string) : String.prefix "" s = true.
Proof. now destruct s. Qed.

Lemma prefix_append (p r : string) : String.prefix p (p +:+ r) = true.
Proof.
  induction p as [|a p IH]; [apply prefix_nil|].
  rewrite append_cons. cbn [String.prefix].
  destruct (ascii_dec a a) as [_|Hne]; [exact IH | now destruct Hne].
Qed.

Lemma length_append (p r : string) :
  String.length (p +:+ r) = (String.length p + String.length r)%nat.
Proof.
  induction p as [|a p IH]; [reflexivity|].
  rewrite append_cons. cbn [String.length]. now rewrite IH.
Qed.

Lemma substring_append (p r : string) (n : nat) :
  String.substring (String.length p) n (p +:+ r) = String.substring 0 n r.
Proof.
  induction p as [|a p IH]; [reflexivity|].
  rewrite append_cons. cbn [String.length String.substring]. exact IH.
Qed.

(** Stripping a prefix off a string that starts with it leaves the rest. *)
Lemma strip_prefix_append (p r : string) : strip_prefix p (p +:+ r) = Some r.
Proof.
  unfold strip_prefix. rewrite prefix_append, length_append, substring_append.
  replace (String.length p + String.length r - String.length p)%nat
    with (String.length r) by lia.
  now rewrite substring_all.
Qed.

Lemma strip_data_uri_png (payload : string) :
  strip_data_uri ("data:image/png;base64," +:+ payload) = payload.
Proof. unfold strip_data_uri. now rewrite strip_prefix_append. Qed.

Lemma strip_data_uri_jpeg (payload : string) :
  strip_data_uri ("data:image/jpeg;base64," +:+ payload) = payload.
Proof.
  unfold strip_data_uri.
  change (strip_prefix "data:image/png;base64," ("data:image/jpeg;base64," +:+ payload))
    with (@None string).
  now rewrite strip_prefix_append.
Qed.

Lemma is_png_data_uri (payload : string) :
  String.prefix "data:image/png" ("data:image/png;base64," +:+ payload) = true.
Proof.
  change ("data:image/png;base64," +:+ payload)
    with ("data:image/png" +:+ (";base64," +:+ payload)).
  apply prefix_append.
Qed.

(** What the route embeds for a data URI of either media type. *)
Lemma embedSignature_data_uri (png : bool) (payload : string) :
  embedSignature E (data_uri png payload) = embedder E png (base64_decode E payload).
Proof.
  unfold embedSignature, data_uri, embedder. destruct png.
  - now rewrite strip_data_uri_png, is_png_data_uri.
  - rewrite strip_data_uri_jpeg.
    change (String.prefix "data:image/png" ("data:image/jpeg;base64," +:+ payload))
      with false.
    reflexivity.
Qed.

(** X11.  A signature field whose image arrives as a PNG or JPEG data URI
    and is embedded: the payload after the prefix is decoded and given to
    the embedder of that media type, and exactly one image is drawn, with
    opacity 0.9, at the size [calculateImageDimensions] returns for the
    embedded image and the field's box, computed by the engine, and moved
    from the box's corner by the offsets it returns; one side of the image
    is the box's own. *)
Theorem signature_image_is_fitted (png : bool) (payload : string) (img : image Q)
    (now : Z) (pages : doc) (ps : list (string * value)) (c : coordinates) (i : nat) :
  assoc "type" ps = VStr "signature" ->
  numeric_coords (assoc "pdfCoordinates" ps) = Some c ->
  page_at pages (pageIndex (c_page c) pages) = Some i ->
  embedder E png (base64_decode E payload) = Some img ->
  let d := calculateImageDimensions (H := engine_arith) img (c_width c) (c_height c) in
  renderField E (VStr (data_uri png payload)) now pages (VObj ps)
  = Ok (add_ops i
          [DrawImage img (c_x c ⊕ xOffset d) (c_y c ⊕ yOffset d) (width d) (height d) 0.9]
          pages) /\
  (width d = c_width c \/ height d = c_height c).
Proof.
  intros Ht Hc Hp Hembed d.
  assert (Hk : switch_type (assoc "type" ps) = Some KSignature) by now rewrite Ht.
  rewrite (renderField_kind E _ _ _ _ c KSignature Hc Hk), Hp.
  split; [|apply one_side_clamped].
  assert (Htruthy : truthy (VStr (data_uri png payload)) = true)
    by (destruct png; reflexivity).
  assert (Hdraw : drawSignatureImage E (VStr (data_uri png payload)) pages (Some i) c
                  = Ok (add_ops i
                          [DrawImage img (c_x c ⊕ xOffset d) (c_y c ⊕ yOffset d)
                             (width d) (height d) 0.9] pages)).
  { unfold drawSignatureImage. rewrite embedSignature_data_uri, Hembed. apply draw_on_page. }
  destruct c as [x y w h p]. cbn [renderKind]. now rewrite Htruthy, Hdraw.
Qed.
End SignatureImage.

(* ===================================================================== *)
(** ** The audit model: schema and queries *)

Section SchemaProperties.
Variable E : externals.
Local Open Scope Q_scope.


Lemma in_enum_In (s : string) : in_enum s = true -> In s type_enum.
Proof.
  unfold in_enum. rewrite existsb_exists. intros (t & Hin & Heq).
  apply String.eqb_eq in Heq. now subst.
Qed.

(** X13.  A save that completes stores a record that satisfies the schema:
    a non-empty [pdfId] and non-empty hashes, as many fields as were given,
    each with a type of the enumeration and a page of at least 1; the record
    is appended to the collection under an identifier that no record of the
    collection has, and no file is touched. *)
Theorem stored_record_satisfies_schema (d : auditInit) (w w' : world) (r : auditRecord) :
  Audit_save E d w = (Ok r, w') ->
  (a_pdfId r <> ""%string /\ a_originalHash r <> ""%string /\
   a_signedHash r <> ""%string) /\
  Forall2 (λ f af, In (af_type af) type_enum /\ 1 <= c_page (af_coordinates af) /\
                   (forall s, fi_type f = VStr s -> af_type af = s))
    (i_fields d) (a_fields r) /\
  Forall (λ r', a_id r' <> a_id r) (audits w) /\
  audits w' = audits w ++ [r] /\ files w' = files w.
Proof.
  intros Hs. apply Audit_save_inv in Hs as (this & Hv & -> & ->).
  pose proof (validate_record E _ _ _ Hv) as (Hid & _ & _ & _ & _ & _ & Hp & Ho & Hsg & _).
  apply validate_inv, validate_fields_inv in Hv.
  rewrite pre_save_fields. cbn [audits files].
  split; [now repeat split|]. split; [|split; [|now split]].
  - eapply Forall2_impl; [exact Hv|]. cbn. intros f af Hf.
    apply validate_field_inv in Hf as (Henum & Hpage & _ & Htype & _).
    split; [now apply in_enum_In|]. now split.
  - change (a_id (pre_save this)) with (a_id this). rewrite Hid.
    eapply Forall_impl; [apply fresh_id_above|]. cbn. intros r' Hr'. lia.
Qed.
End SchemaProperties.

Section Queries.

#[local] Instance newer_first_total : Total newer_first.
Proof. intros a b. unfold newer_first. lia. Qed.

#[local] Instance newer_first_transitive : Transitive newer_first.
Proof. intros a b c. unfold newer_first. lia. Qed.

Lemma sort_newest_first_sorted (found : list auditRecord) :
  StronglySorted newer_first (sort_newest_first found).
Proof. apply StronglySorted_merge_sort; apply _. Qed.

Lemma sort_newest_first_perm (found : list auditRecord) :
  sort_newest_first found ≡ₚ found.
Proof. apply merge_sort_Permutation. Qed.

(** X14.  [findByHash] returns exactly the records of the collection whose
    original or signed hash is the one asked for, each as often as it is
    stored, newest first. *)
Theorem findByHash_sound_and_complete (hash : string) (collection : list auditRecord) :
  (forall r, r ∈ findByHash hash collection <->
             r ∈ collection /\ (a_originalHash r = hash \/ a_signedHash r = hash)) /\
  findByHash hash collection ≡ₚ List.filter (has_hash hash) collection /\
  StronglySorted newer_first (findByHash hash collection).
Proof.
  unfold findByHash. split; [|split].
  - intros r. rewrite sort_newest_first_perm, !list_elem_of_In, filter_In.
    unfold has_hash. rewrite orb_true_iff, !String.eqb_eq. reflexivity.
  - apply sort_newest_first_perm.
  - apply sort_newest_first_sorted.
Qed.

(** What a positive limit on the sorted collection gives. *)
Lemma newest_first_prefix (n : nat) (collection : list auditRecord) :
  let found := take n (sort_newest_first collection) in
  length found = Nat.min n (length collection) /\
  StronglySorted newer_first found /\
  exists older, found ++ older ≡ₚ collection /\
                forall a b, a ∈ found -> b ∈ older ->
                            (a_timestamp b <= a_timestamp a)%Z.
Proof.
  intros found. subst found.
  pose proof (sort_newest_first_sorted collection) as Hsorted.
  pose proof (sort_newest_first_perm collection) as Hperm.
  rewrite <- (take_drop n (sort_newest_first collection)) in Hsorted.
  split; [|split].
  - rewrite length_take. now rewrite Hperm.
  - now apply StronglySorted_app_1_l in Hsorted.
  - exists (drop n (sort_newest_first collection)). split.
    + now rewrite take_drop.
    + intros a b Ha Hb.
      exact (StronglySorted_app_1_elem_of _ _ _ a b Hsorted Ha Hb).
Qed.

(** X15.  [getRecent], called without a limit (then 50) or with a positive
    one, returns that many records, or all if there are fewer, newest first,
    and every record it leaves out is at most as recent as every record it
    returns. *)
Theorem getRecent_returns_the_newest (limit : option nat) (collection : list auditRecord) :
  limit <> Some 0%nat ->
  let n := default 50%nat limit in
  let found := getRecent limit collection in
  length found = Nat.min n (length collection) /\
  StronglySorted newer_first found /\
  exists older, found ++ older ≡ₚ collection /\
                forall a b, a ∈ found -> b ∈ older ->
                            (a_timestamp b <= a_timestamp a)%Z.
Proof.
  intros Hlimit n found. subst found. unfold getRecent. fold n.
  assert (Hn : n <> 0%nat) by (subst n; destruct limit as [[|k]|]; cbn; congruence).
  destruct n as [|k] eqn:Heq; [congruence|]. cbn [query_limit].
  apply newest_first_prefix.
Qed.

(** X16.  [GET /audits] answers 200 with at most 50 records, newest first,
    none of the records left out being more recent than one returned, and
    leaves the world as it was. *)
Theorem audits_route_lists_the_50_newest (w : world) :
  exists found,
    audits_route w = (Ok (Reply 200 found), w) /\
    length found = Nat.min 50 (length (audits w)) /\
    StronglySorted newer_first found /\
    exists older, found ++ older ≡ₚ audits w /\
                  forall a b, a ∈ found -> b ∈ older ->
                              (a_timestamp b <= a_timestamp a)%Z.
Proof.
  exists (take 50 (sort_newest_first (audits w))). split; [reflexivity|].
  apply newest_first_prefix.
Qed.
End Queries.

(* ===================================================================== *)
(** ** The read-only routes after a signing *)

Section AfterSigning.
Variable E : externals.
Context {G : Engine}.

(** What a 200 answer leaves behind, in the terms the other routes use. *)
Lemma signed_world (req : request) (w w' : world) (resp : response) :
  signPdf E req w = (Ok resp, w') ->
  status resp = 200%nat ->
  exists b drawn r,
    resp = success_response w (calculateSHA256 E b)
             (calculateSHA256 E (pdf_save E b drawn)) r /\
    w' = World (files (after_writes w (pdf_save E b drawn))) (audits w ++ [r])
           (clock w) (reads (after_writes w (pdf_save E b drawn))) /\
    a_id r = fresh_id (audits w) /\
    a_originalHash r = calculateSHA256 E b /\
    a_signedHash r = calculateSHA256 E (pdf_save E b drawn).
Proof.
  intros Hs H200. apply signPdf_outcome_of in Hs.
  destruct Hs as [msg Hbad | Hnone | e | e b Hb | e b drawn Hb
                 | b n items drawn afs audit w' Hb Hload Hf Hvalid Hdraw Hafs Hsave];
    cbn in H200; try discriminate.
  apply Audit_save_inv in Hsave as (this & Hv & -> & ->).
  apply validate_record in Hv as (Hid & Hoh & Hsh & _).
  exists b, drawn, (pre_save this). repeat split; trivial.
Qed.

Lemma download_found (filename : string) (w : world) (content : bytes) :
  files w !! path_join SIGNED_DIR filename = Some content ->
  download filename w
  = (Ok (Reply 200 ("signed-document-" +:+ pretty (clock w) +:+ ".pdf", content)),
     World (files w) (audits w) (clock w) (path_join SIGNED_DIR filename :: reads w)).
Proof.
  intros Hfile. unfold download, pathExists, readFile, Date_now. run_route.
  rewrite Hfile. rewrite bool_decide_eq_true_2 by eauto. cbn [negb].
  rewrite Hfile. reflexivity.
Qed.

(** X17.  After a successful signing, downloading the file named in the
    answer returns, as an attachment with a time-stamped name, exactly the
    bytes whose digest the answer gave as [signedHash]; the download changes
    no file and no audit record. *)
Theorem download_returns_the_signed_bytes (req : request) (w w' : world)
    (resp : response) :
  signPdf E req w = (Ok resp, w') ->
  status resp = 200%nat ->
  exists content signedHash w'',
    download (signed_name w) w'
    = (Ok (Reply 200 ("signed-document-" +:+ pretty (clock w') +:+ ".pdf", content)), w'') /\
    calculateSHA256 E content = signedHash /\
    (exists m u oh id d, json resp = SuccessBody m u oh signedHash id d /\
                         d = "/api/download/" +:+ signed_name w) /\
    files w'' = files w' /\ audits w'' = audits w'.
Proof.
  intros Hs H200.
  destruct (signed_world req w w' resp Hs H200) as (b & drawn & r & -> & -> & _).
  destruct (after_writes_files w (pdf_save E b drawn)) as [Hsigned _].
  exists (pdf_save E b drawn), (calculateSHA256 E (pdf_save E b drawn)).
  eexists. split; [|split; [reflexivity|split]].
  - apply download_found. exact Hsigned.
  - unfold success_response. cbn [json]. eauto 10.
  - split; reflexivity.
Qed.

(** X18.  A signed document can be traced by either digest: after a
    successful signing, [findByHash] on the [originalHash] of the answer and
    on its [signedHash] both return the record stored for it, whose
    identifier is the [auditId] of the answer. *)
Theorem signing_is_traceable_by_hash (req : request) (w w' : world) (resp : response) :
  signPdf E req w = (Ok resp, w') ->
  status resp = 200%nat ->
  exists m u originalHash signedHash d r,
    json resp = SuccessBody m u originalHash signedHash (a_id r) d /\
    r ∈ findByHash originalHash (audits w') /\
    r ∈ findByHash signedHash (audits w').
Proof.
  intros Hs H200.
  destruct (signed_world req w w' resp Hs H200) as (b & drawn & r & -> & -> & _ & Hoh & Hsh).
  unfold success_response. cbn [json audits].
  do 5 eexists. exists r. split; [reflexivity|].
  unfold findByHash.
  rewrite !sort_newest_first_perm, !list_elem_of_In, !filter_In, !in_app_iff.
  unfold has_hash. rewrite Hoh, Hsh, !String.eqb_refl, orb_true_r. cbn. tauto.
Qed.
End AfterSigning.

Section ReadOnlyRoutes.
Variable castObjectId : string -> option nat.

(** X19.  Downloading a name under which no signed file is stored answers
    404 "File not found" and changes nothing. *)
Theorem download_of_absent_file_is_not_found (filename : string) (w : world) :
  single_segment filename = true ->
  files w !! path_join SIGNED_DIR filename = None ->
  download filename w = (Ok (ErrorReply 404 "File not found"), w).
Proof.
  intros _ Hnone. unfold download, pathExists. run_route. rewrite Hnone.
  rewrite bool_decide_eq_false_2 by (intros [? ?]; discriminate). reflexivity.
Qed.

Lemma find_id_inv (oid : nat) (collection : list auditRecord) :
  match findById oid collection with
  | Some r => r ∈ collection /\ a_id r = oid
  | None => forall r, r ∈ collection -> a_id r <> oid
  end.
Proof.
  unfold findById. destruct (List.find _ collection) as [r|] eqn:Hfind.
  - apply find_some in Hfind as [Hin Heq]. apply Nat.eqb_eq in Heq.
    split; [now apply list_elem_of_In | exact Heq].
  - intros r Hin Heq. apply list_elem_of_In in Hin.
    apply (find_none _ _ Hfind) in Hin. apply Nat.eqb_neq in Hin. contradiction.
Qed.

(** X20.  [GET /audit/:id] for an identifier the model can cast answers 200
    with a record of the collection that has this identifier, or 404 "Audit
    trail not found" when the collection has none; an identifier that cannot
    be cast gives 500.  The world is never changed. *)
Theorem audit_route_finds_by_identifier (id : string) (w : world) :
  match castObjectId id with
  | None =>
      audit_route castObjectId id w
      = (Ok (ErrorReply 500 "Failed to fetch audit trail"), w)
  | Some oid =>
      (exists r, audit_route castObjectId id w = (Ok (Reply 200 r), w) /\
                 r ∈ audits w /\ a_id r = oid) \/
      (audit_route castObjectId id w = (Ok (ErrorReply 404 "Audit trail not found"), w) /\
       forall r, r ∈ audits w -> a_id r <> oid)
  end.
Proof.
  unfold audit_route, try_catch. destruct (castObjectId id) as [oid|]; [|reflexivity].
  pose proof (find_id_inv oid (audits w)) as Hfind.
  destruct (findById oid (audits w)) as [r|].
  - left. exists r. now split.
  - right. now split.
Qed.
End ReadOnlyRoutes.

(* ===================================================================== *)
(** ** The further properties at concrete inputs *)

Section MoreExamples.
Local Open Scope Q_scope.
#[local] Existing Instance Demo.engine.

Lemma client_error_witness :
  snd (signPdf Demo.env Sample.one_invalid Demo.world0) = Demo.world0 /\
  bad_request (req_body Sample.one_invalid).
Proof.
  apply (client_error_only_for_bad_requests Demo.env Sample.one_invalid Demo.world0 _
           (Response 400 (ErrorBody "Invalid coordinates for 1 field(s)"))).
  - vm_compute. reflexivity.
  - reflexivity.
Defined.

Lemma existing_files_witness :
  files (snd (signPdf Demo.env Sample.two_fields Demo.world0))
    !! path_join PUBLIC_DIR "sample.pdf"
  = files Demo.world0 !! path_join PUBLIC_DIR "sample.pdf".
Proof.
  destruct (existing_files_preserved Demo.env Sample.two_fields Demo.world0
              (snd (signPdf Demo.env Sample.two_fields Demo.world0))
              Sample.signed_answer) as [Hsource _].
  - vm_compute. reflexivity.
  - exact Hsource.
Defined.

Lemma success_is_hash_anchored_witness :
  exists b signedPdfBytes r,
    files Demo.world0 !! path_join PUBLIC_DIR "sample.pdf" = Some b /\
    files (snd (signPdf Demo.env Sample.two_fields Demo.world0))
      !! path_join SIGNED_DIR (signed_name Demo.world0) = Some signedPdfBytes /\
    a_originalHash r = calculateSHA256 Demo.env b /\
    a_signedHash r = calculateSHA256 Demo.env signedPdfBytes.
Proof.
  destruct (success_is_hash_anchored Demo.env Sample.two_fields Demo.world0
              (snd (signPdf Demo.env Sample.two_fields Demo.world0))
              Sample.signed_answer)
    as (b & sb & r & Hb & Hsigned & _ & _ & _ & Hoh & Hsh & _).
  - vm_compute. reflexivity.
  - reflexivity.
  - exists b, sb, r. now repeat split.
Defined.

Lemma missing_source_witness :
  signPdf Demo.env Sample.two_fields Sample.bare_world
  = (Ok (Response 404 (ErrorBody "Sample PDF not found")), Sample.bare_world).
Proof.
  apply (missing_source_is_not_found Demo.env Sample.two_fields Sample.bare_world
           (Demo.body_of [VObj Demo.signature_field; VObj Demo.text_field])
           [VObj Demo.signature_field; VObj Demo.text_field]);
    reflexivity.
Defined.

Lemma unreadable_source_witness :
  exists e,
    signPdf Sample.env_unparsable Sample.two_fields Demo.world0
    = (Ok (Response 500 (ErrorDetails "Failed to sign PDF" e)), after_read Demo.world0) /\
    files (after_read Demo.world0) = files Demo.world0 /\
    audits (after_read Demo.world0) = audits Demo.world0.
Proof.
  apply (unreadable_source_fails_before_writing Sample.env_unparsable Sample.two_fields
           Demo.world0 (Demo.body_of [VObj Demo.signature_field; VObj Demo.text_field])
           [VObj Demo.signature_field; VObj Demo.text_field]
           [Byte.x25; Byte.x50; Byte.x44; Byte.x46]);
    reflexivity.
Defined.

(** An unknown type beside a text field with the value U+0001: the
    drawing throws before the files are written. *)
Lemma refused_text_witness :
  exists e,
    signPdf Demo.env (Demo.request_of [VObj Demo.stamp_field; VObj Demo.control_field])
      Demo.world0
    = (Ok (Response 500 (ErrorDetails "Failed to sign PDF" e)), after_read Demo.world0) /\
    files (after_read Demo.world0) = files Demo.world0 /\
    audits (after_read Demo.world0) = audits Demo.world0.
Proof.
  exact (refused_text_fails_before_writing Demo.env
           (Demo.request_of [VObj Demo.stamp_field; VObj Demo.control_field]) Demo.world0
           (Demo.body_of [VObj Demo.stamp_field; VObj Demo.control_field])
           [VObj Demo.stamp_field; VObj Demo.control_field]
           [Byte.x25; Byte.x50; Byte.x44; Byte.x46] 2
           eq_refl eq_refl eq_refl eq_refl eq_refl eq_refl eq_refl (le_S _ _ (le_n 1))).
Defined.

Lemma empty_field_list_witness :
  exists r,
    fst (signPdf Demo.env Sample.no_fields Demo.world0)
    = Ok (success_response Demo.world0 "sha256:4" "sha256:5" r) /\
    a_fields r = [] /\ a_metadata r = Metadata 0 false 1.
Proof.
  destruct (empty_field_list_signs_untouched_document Demo.env Sample.no_fields
              Demo.world0 (Demo.body_of []) "doc1"
              [Byte.x25; Byte.x50; Byte.x44; Byte.x46] 2 eq_refl eq_refl)
    as (r & Hs & Hfields & Hmeta); try reflexivity.
  - discriminate.
  - intros x. cbn. discriminate.
  - exists r. rewrite Hs. now repeat split.
Defined.

Lemma radio_circle_witness :
  renderField Demo.env VUndefined 0 [[]; []] (VObj Sample.radio_field)
  = Ok [[DrawCircle 60 20 8 (rgb 0 0 0) 1 (rgb 1 1 1)]; []].
Proof.
  destruct (radio_circle_as_computed Demo.env VUndefined 0 [[]; []] Sample.radio_field
              (Coordinates 10 10 100 20 1) 0%nat eq_refl eq_refl eq_refl) as [Hdraw _].
  rewrite Hdraw. vm_compute. reflexivity.
Defined.


Lemma rendering_only_appends_witness :
  exists pages',
    renderFields Demo.env (VStr "data:image/png;base64,AAAA") 0
      [[DrawCircle 1 1 1 (rgb 0 0 0) 1 (rgb 1 1 1)]; []]
      [VObj Demo.signature_field; VObj Demo.text_field] = Ok pages' /\
    length pages' = 2%nat /\
    (ops_count pages' <= 1 + 2 * 2)%nat.
Proof.
  eexists. split; [vm_compute; reflexivity|].
  destruct (rendering_only_appends Demo.env (VStr "data:image/png;base64,AAAA") 0
              [VObj Demo.signature_field; VObj Demo.text_field]
              [[DrawCircle 1 1 1 (rgb 0 0 0) 1 (rgb 1 1 1)]; []] _ eq_refl)
    as (Hlen & _ & Hcount).
  split; [exact Hlen | exact Hcount].
Defined.

Lemma signature_image_is_fitted_witness :
  renderField Sample.env_embedding (VStr "data:image/png;base64,AAAA") 0 [[]; []]
    (VObj Demo.signature_field)
  = Ok [[DrawImage (Image 200 100) 40 10 40 20 0.9]; []].
Proof.
  destruct (signature_image_is_fitted Sample.env_embedding true "AAAA" (Image 200 100) 0
              [[]; []] Demo.signature_field (Coordinates 10 10 100 20 1) 0%nat
              eq_refl eq_refl eq_refl eq_refl) as [Hdraw _].
  change (data_uri true "AAAA") with "data:image/png;base64,AAAA"%string in Hdraw.
  rewrite Hdraw. vm_compute. reflexivity.
Defined.

Lemma stored_record_witness :
  exists r w',
    Audit_save Demo.env Demo.init Sample.used_world = (Ok r, w') /\
    a_id r = 2%nat /\
    Forall (λ r', a_id r' <> a_id r) (audits Sample.used_world) /\
    audits w' = audits Sample.used_world ++ [r] /\ files w' = files Sample.used_world.
Proof.
  destruct (Audit_save Demo.env Demo.init Sample.used_world) as [[r|e] w'] eqn:Hs;
    [|vm_compute in Hs; discriminate Hs].
  exists r, w'. split; [reflexivity|].
  destruct (stored_record_satisfies_schema Demo.env Demo.init Sample.used_world w' r Hs)
    as (_ & _ & Hid & Haudits & Hfiles).
  split; [|split; [exact Hid | split; [exact Haudits | exact Hfiles]]].
  vm_compute in Hs. now injection Hs as <- _.
Defined.

Lemma getRecent_witness :
  let found := getRecent (Some 2%nat) Sample.records in
  length found = Nat.min 2 (length Sample.records) /\
  StronglySorted newer_first found /\
  exists older, found ++ older ≡ₚ Sample.records /\
                forall a b, a ∈ found -> b ∈ older ->
                            (a_timestamp b <= a_timestamp a)%Z.
Proof.
  apply (getRecent_returns_the_newest (Some 2%nat) Sample.records). discriminate.
Defined.

Lemma download_witness :
  exists content signedHash w'',
    download (signed_name Demo.world0)
      (snd (signPdf Demo.env Sample.two_fields Demo.world0))
    = (Ok (Reply 200 ("signed-document-1700000000000.pdf"%string, content)), w'') /\
    calculateSHA256 Demo.env content = signedHash /\
    signedHash = "sha256:5"%string.
Proof.
  destruct (download_returns_the_signed_bytes Demo.env Sample.two_fields Demo.world0
              (snd (signPdf Demo.env Sample.two_fields Demo.world0))
              Sample.signed_answer)
    as (content & signedHash & w'' & Hd & Hhash & (m & u & oh & id & d & Hjson & _) & _).
  - vm_compute. reflexivity.
  - reflexivity.
  - exists content, signedHash, w''. split; [exact Hd|]. split; [exact Hhash|].
    cbn in Hjson. now injection Hjson as _ _ _ <- _ _.
Defined.

Lemma traceable_witness :
  exists m u originalHash signedHash d r,
    json Sample.signed_answer = SuccessBody m u originalHash signedHash (a_id r) d /\
    r ∈ findByHash originalHash
          (audits (snd (signPdf Demo.env Sample.two_fields Demo.world0))) /\
    r ∈ findByHash signedHash
          (audits (snd (signPdf Demo.env Sample.two_fields Demo.world0))).
Proof.
  apply (signing_is_traceable_by_hash Demo.env Sample.two_fields Demo.world0).
  - vm_compute. reflexivity.
  - reflexivity.
Defined.

Lemma download_absent_witness :
  download "signed_1.pdf" Demo.world0
  = (Ok (ErrorReply 404 "File not found"), Demo.world0).
Proof.
  apply (download_of_absent_file_is_not_found "signed_1.pdf" Demo.world0); reflexivity.
Defined.
End MoreExamples.
